(** * Campaign report aggregation (gads-cron): a shallow embedding

    The repository holds two copies of [getCampaignData]: the console
    reporter and the Firestore sync job.  Both fetch the campaign
    catalogue, fetch the daily metric rows of every campaign, roll the rows
    up into totals, derive the active window and format one display record
    per campaign.  This file embeds that pipeline and the ECMAScript
    built-ins it relies on ([parseInt], [parseFloat], [isNaN],
    [Number.prototype.toFixed], string conversion of numbers, [Date]
    parsing of [YYYY-MM-DD] strings), then states and proves the properties
    of the report.

    Numbers.  An ECMAScript number is an IEEE 754 binary64 value; it is
    modelled by [spec_float] with precision 53 and maximal exponent 1024,
    whose sum, product and quotient round to nearest-even as the language
    requires.  Values that the program obtains from [parseInt], from
    differences of time values and from [Math.ceil] are integers; they are
    carried as [Z], which is exact for magnitudes up to 2^53 (the
    safe-integer range), and converted with [ofZ] where the program divides
    them.  [NaN] results of such integer computations are [None].

    Values.  A status and the fields of a metric row are arbitrary values:
    [undefined], [null], a number or a string.  Identifiers are integers,
    and names and dates are strings, as the API delivers them.

    Effects.  The two queries are answers handed to the run, each a value
    or a thrown error; the clock is read once.  [campaignMap] is an
    association list in insertion order. *)

From Stdlib Require Import ZArith List String Ascii Bool Lia.
From Stdlib Require Import Permutation Sorted.
From Stdlib Require Import Floats.SpecFloat.
Import ListNotations.

Local Open Scope string_scope.
Local Open Scope Z_scope.

(* ================================================================== *)
(** * ECMAScript built-ins *)
(* ================================================================== *)

Module JS.

(** ** Code units and digit strings

    Strings are sequences of code units below 256. *)

Definition codeUnit (c : ascii) : Z := Z.of_nat (nat_of_ascii c).

(** [StrWhiteSpaceChar] restricted to code units below 256: TAB, LF, VT,
    FF, CR, SP and NBSP. *)
Definition isWhiteSpace (c : ascii) : bool :=
  let n := codeUnit c in
  ((9 <=? n) && (n <=? 13)) || (n =? 32) || (n =? 160).

(** Value of a code unit as a digit in some radix up to 36. *)
Definition digitValue (c : ascii) : option Z :=
  let n := codeUnit c in
  if (48 <=? n) && (n <=? 57) then Some (n - 48)
  else if (97 <=? n) && (n <=? 122) then Some (n - 87)
  else if (65 <=? n) && (n <=? 90) then Some (n - 55)
  else None.

Definition isRadixDigit (R : Z) (c : ascii) : bool :=
  match digitValue c with
  | Some d => d <? R
  | None => false
  end.

Definition isDecimalDigit : ascii -> bool := isRadixDigit 10.

Fixpoint trimStart (s : string) : string :=
  match s with
  | String c r => if isWhiteSpace c then trimStart r else s
  | EmptyString => EmptyString
  end.

(** Longest prefix whose code units satisfy [p], and the remainder. *)
Fixpoint span (p : ascii -> bool) (s : string) : string * string :=
  match s with
  | String c r =>
      if p c then let (a, b) := span p r in (String c a, b)
      else (EmptyString, s)
  | EmptyString => (EmptyString, EmptyString)
  end.

(** Mathematical value of a digit string in radix [R]. *)
Fixpoint mathInt (R : Z) (ds : string) (acc : Z) : Z :=
  match ds with
  | String c r =>
      mathInt R r (acc * R + match digitValue c with Some d => d | None => 0 end)
  | EmptyString => acc
  end.

Definition digitChar (d : Z) : ascii := ascii_of_nat (48 + Z.to_nat d).

Fixpoint digitsFuel (fuel : nat) (n : Z) (acc : string) : string :=
  match fuel with
  | O => acc
  | S f =>
      let acc' := String (digitChar (n mod 10)) acc in
      if n <? 10 then acc' else digitsFuel f (n / 10) acc'
  end.

(** Decimal numeral of a non-negative integer, without leading zeros. *)
Definition decimalDigits (n : Z) : string :=
  digitsFuel (S (Z.to_nat (Z.log2 n))) n EmptyString.

(** Decimal numeral of an integer, as string conversion prints an
    integer-valued number below 10^21 in magnitude. *)
Definition integerToString (z : Z) : string :=
  if z <? 0 then String "-" (decimalDigits (- z)) else decimalDigits z.

Fixpoint zeros (n : nat) : string :=
  match n with
  | O => EmptyString
  | S k => String "0" (zeros k)
  end.

(** [s.split(sep)[0]]: the text before the first occurrence of [sep]. *)
Fixpoint beforeFirst (sep : ascii) (s : string) : string :=
  match s with
  | String c r => if Ascii.eqb c sep then EmptyString else String c (beforeFirst sep r)
  | EmptyString => EmptyString
  end.

(** ** [parseInt] on a string, radix argument omitted

    Leading white space is skipped, one sign is read, a [0x] or [0X] prefix
    selects radix 16, and the longest run of digits is read; no digit at
    all is [NaN] ([None]). *)
Definition parseIntString (input : string) : option Z :=
  let s0 := trimStart input in
  let '(sign, s1) :=
    match s0 with
    | String "-" r => (-1, r)
    | String "+" r => (1, r)
    | _ => (1, s0)
    end in
  let '(R, s2) :=
    match s1 with
    | String "0" (String "x" r) => (16, r)
    | String "0" (String "X" r) => (16, r)
    | _ => (10, s1)
    end in
  match fst (span (isRadixDigit R) s2) with
  | EmptyString => None
  | ds => Some (sign * mathInt R ds 0)
  end.

(** ** Numbers: IEEE 754 binary64 *)

Definition number := spec_float.

Definition fadd : number -> number -> number := SFadd 53 1024.
Definition fmul : number -> number -> number := SFmul 53 1024.
Definition fdiv : number -> number -> number := SFdiv 53 1024.

Definition nan : number := S754_nan.
Definition zero : number := S754_zero false.

(** The number nearest to an integer (ties to even). *)
Definition ofZ (z : Z) : number := binary_normalize 53 1024 z 0 false.

Definition isNaNNumber (x : number) : bool :=
  match x with
  | S754_nan => true
  | _ => false
  end.

(** [0 <= x] as the language compares numbers: false on [NaN], true on
    both zeros. *)
Definition nonNegative (x : number) : bool := SFleb zero x.

(** [x || 0] on a number: [NaN] and both zeros are falsy. *)
Definition orZero (x : number) : number :=
  match x with
  | S754_nan => zero
  | S754_zero _ => zero
  | _ => x
  end.

(** [z || 0] on an integer result that may be [NaN]. *)
Definition orZeroInt (z : option Z) : Z :=
  match z with
  | Some v => v
  | None => 0
  end.

(** *** Decimal rendering of a number ([Number::toString], radix 10)

    A positive finite number is [m * 2^e].  The comparison below orders
    [s * 10^q] against [a * 2^g] exactly. *)
Definition cmpDecBin (s q a g : Z) : comparison :=
  (s * 10 ^ Z.max q 0 * 2 ^ Z.max (- g) 0
   ?= a * 2 ^ Z.max g 0 * 10 ^ Z.max (- q) 0).

(** Integer part of [m * 2^e / 10^q]. *)
Definition floorScaled (m e q : Z) : Z :=
  (m * 2 ^ Z.max e 0 * 10 ^ Z.max (- q) 0)
  / (2 ^ Z.max (- e) 0 * 10 ^ Z.max q 0).

(** The least [n] from [n0] on with [m * 2^e < 10^n]. *)
Fixpoint decimalExponentFrom (fuel : nat) (n0 m e : Z) : Z :=
  match fuel with
  | O => n0
  | S f =>
      match cmpDecBin 1 n0 m e with
      | Gt => n0
      | _ => decimalExponentFrom f (n0 + 1) m e
      end
  end.

(** The [n] with [10^(n-1) <= m * 2^e < 10^n].  With [t] the binary
    logarithm of the value rounded down, the search starts from a lower
    bound of [t * log10 2], which lies between [t * 30102 / 100000] and
    [t * 30103 / 100000]. *)
Definition decimalExponent (m e : Z) : Z :=
  let t := e + Z.log2 m in
  let n0 := (if 0 <=? t then t * 30102 / 100000 else t * 30103 / 100000) + 1 in
  decimalExponentFrom (Z.to_nat (Z.abs t + 2)) n0 m e.

(** Does [s * 10^q] round to the binary64 value [m * 2^e] (with [m] and
    [e] in canonical form)?  The interval reaches half a unit in the last
    place on each side, a quarter below a power of two, and contains its
    end points when [m] is even. *)
Definition roundsTo (m e s q : Z) : bool :=
  let below := if (m =? 2 ^ 52) && (-1074 <? e) then 1 else 2 in
  match cmpDecBin s q (4 * m - below) (e - 2),
        cmpDecBin s q (4 * m + 2) (e - 2) with
  | Gt, Lt => true
  | Eq, Lt => Z.even m
  | Gt, Eq => Z.even m
  | _, _ => false
  end.

(** The fewest digits [k], from [k0] on, and the [k]-digit integer [s] such
    that [s * 10^(n-k)] rounds to [m * 2^e]; of two such integers the one
    nearer to the value is taken. *)
Fixpoint shortestDigits (fuel : nat) (k m e n : Z) : Z * Z :=
  let q := n - k in
  let lo := floorScaled m e q in
  let hi := lo + 1 in
  match fuel with
  | O => (lo, k)
  | S f =>
      let nearer :=
        match cmpDecBin (lo + hi) q (2 * m) e with
        | Lt => hi
        | Gt => lo
        | Eq => if Z.even lo then lo else hi
        end in
      match roundsTo m e lo q, roundsTo m e hi q with
      | true, true => (nearer, k)
      | true, false => (lo, k)
      | false, true => (hi, k)
      | false, false => shortestDigits f (k + 1) m e n
      end
  end.

Definition positiveToString (m : positive) (e : Z) : string :=
  let n0 := decimalExponent (Zpos m) e in
  let '(s0, k0) := shortestDigits 17 1 (Zpos m) e n0 in
  let '(s, k, n) := if s0 =? 10 ^ k0 then (1, 1, n0 + 1) else (s0, k0, n0) in
  let ds := decimalDigits s in
  if (-5 <=? n) && (n <=? 21) then
    if k <=? n then ds ++ zeros (Z.to_nat (n - k))
    else if 0 <? n then
      substring 0 (Z.to_nat n) ds ++ "." ++ substring (Z.to_nat n) (Z.to_nat (k - n)) ds
    else "0." ++ zeros (Z.to_nat (- n)) ++ ds
  else
    let ex := (if 0 <? n - 1 then "+" else "-") ++ decimalDigits (Z.abs (n - 1)) in
    if k =? 1 then ds ++ "e" ++ ex
    else substring 0 1 ds ++ "." ++ substring 1 (Z.to_nat (k - 1)) ds ++ "e" ++ ex.

Definition numberToString (x : number) : string :=
  match x with
  | S754_nan => "NaN"
  | S754_zero _ => "0"
  | S754_infinity false => "Infinity"
  | S754_infinity true => "-Infinity"
  | S754_finite sx m e =>
      match binary_round 53 1024 false m e with
      | S754_finite _ m' e' =>
          (if sx then "-" else "") ++ positiveToString m' e'
      | S754_infinity _ => if sx then "-Infinity" else "Infinity"
      | _ => "0"
      end
  end.

(** *** Reading a decimal literal

    [decimalToNumber sign D E] is the number nearest to [D * 10^E]. *)
Definition decimalToNumber (sign : bool) (D E : Z) : number :=
  if D =? 0 then S754_zero sign
  else if 0 <=? E then binary_normalize 53 1024 ((if sign then -1 else 1) * (D * 10 ^ E)) 0 false
  else
    let '(q, e, l) := SFdiv_core_binary 53 1024 D 0 (10 ^ (- E)) 0 in
    binary_round_aux 53 1024 sign q e l.

(** An exponent part [e], [e+] or [e-] followed by digits; the value of the
    exponent and the text after it. *)
Definition exponentPart (s : string) : option (Z * string) :=
  match s with
  | String c r =>
      if Ascii.eqb c "e" || Ascii.eqb c "E" then
        let '(neg, r') :=
          match r with
          | String "-" t => (true, t)
          | String "+" t => (false, t)
          | _ => (false, r)
          end in
        match span isDecimalDigit r' with
        | (EmptyString, _) => None
        | (ds, rest) => Some ((if neg then -1 else 1) * mathInt 10 ds 0, rest)
        end
      else None
  | EmptyString => None
  end.

(** The longest prefix that is a [StrUnsignedDecimalLiteral] other than
    [Infinity]: its digits as an integer, its decimal exponent, and the
    text after it. *)
Definition unsignedDecimalPrefix (s : string) : option (Z * Z * string) :=
  let '(ip, r1) := span isDecimalDigit s in
  let '(fp, r2) :=
    match r1 with
    | String "." t =>
        let '(fp, r2) := span isDecimalDigit t in
        match ip, fp with
        | EmptyString, EmptyString => (EmptyString, r1)
        | _, _ => (fp, r2)
        end
    | _ => (EmptyString, r1)
    end in
  match ip, fp with
  | EmptyString, EmptyString => None
  | _, _ =>
      let D := mathInt 10 (ip ++ fp) 0 in
      let F := Z.of_nat (String.length fp) in
      match exponentPart r2 with
      | Some (x, r3) => Some (D, x - F, r3)
      | None => Some (D, - F, r2)
      end
  end.

(** [parseFloat] on a string: white space is skipped and the longest
    prefix that is a decimal literal is read; none is [NaN]. *)
Definition parseFloatString (input : string) : number :=
  let s0 := trimStart input in
  let '(sign, s1) :=
    match s0 with
    | String "-" r => (true, r)
    | String "+" r => (false, r)
    | _ => (false, s0)
    end in
  if prefix "Infinity" s1 then S754_infinity sign
  else
    match unsignedDecimalPrefix s1 with
    | Some (D, E, _) => decimalToNumber sign D E
    | None => nan
    end.

(** *** [x.toFixed(2)]

    A finite [x] below 10^21 in magnitude is rendered from the integer [n]
    for which [n / 100 - |x|] is nearest to zero, the larger of two such
    integers; its numeral is cut two digits from the right.  A greater or
    non-finite [x] is rendered as string conversion does. *)
Definition toFixed2 (x : number) : string :=
  match x with
  | S754_zero _ => "0.00"
  | S754_finite sx m e =>
      match cmpDecBin 1 21 (Zpos m) e with
      | Gt =>
          let d := 2 ^ Z.max (- e) 0 in
          let n := (Zpos m * 2 ^ Z.max e 0 * 200 + d) / (2 * d) in
          (if sx then "-" else "")
          ++ decimalDigits (n / 100)
          ++ String "." (String (digitChar (n / 10 mod 10))
                           (String (digitChar (n mod 10)) EmptyString))
      | _ => numberToString x
      end
  | _ => numberToString x
  end.

(** ** Values and conversions *)

Inductive JsValue :=
  | JsUndefined
  | JsNull
  | JsNum (x : number)
  | JsStr (s : string).

Definition ToString (v : JsValue) : string :=
  match v with
  | JsUndefined => "undefined"
  | JsNull => "null"
  | JsNum x => numberToString x
  | JsStr s => s
  end.

(** [parseInt(v)] and [parseFloat(v)] convert their argument to a string
    first. *)
Definition parseInt (v : JsValue) : option Z := parseIntString (ToString v).
Definition parseFloat (v : JsValue) : number := parseFloatString (ToString v).

Fixpoint allWhiteSpace (s : string) : bool :=
  match s with
  | String c r => isWhiteSpace c && allWhiteSpace r
  | EmptyString => true
  end.

(** [StrDecimalLiteral] followed by white space only. *)
Definition isStrDecimalLiteral (s : string) : bool :=
  let s1 :=
    match s with
    | String "-" r => r
    | String "+" r => r
    | _ => s
    end in
  if prefix "Infinity" s1 then allWhiteSpace (substring 8 (String.length s1 - 8) s1)
  else
    match unsignedDecimalPrefix s1 with
    | Some (_, _, rest) => allWhiteSpace rest
    | None => false
    end.

(** [NonDecimalIntegerLiteral] ([0x], [0o], [0b] and digits) followed by
    white space only. *)
Definition isNonDecimalIntegerLiteral (s : string) : bool :=
  match s with
  | String "0" (String c r) =>
      let R :=
        if Ascii.eqb c "x" || Ascii.eqb c "X" then 16
        else if Ascii.eqb c "o" || Ascii.eqb c "O" then 8
        else if Ascii.eqb c "b" || Ascii.eqb c "B" then 2
        else 0 in
      match span (isRadixDigit R) r with
      | (EmptyString, _) => false
      | (_, rest) => allWhiteSpace rest
      end
  | _ => false
  end.

(** Is [ToNumber] of a string [NaN]?  A string of white space converts to
    0; otherwise the trimmed string has to be a numeric literal. *)
Definition stringToNumberIsNaN (s : string) : bool :=
  match trimStart s with
  | EmptyString => false
  | t => negb (isStrDecimalLiteral t || isNonDecimalIntegerLiteral t)
  end.

(** The global [isNaN(v)]: [ToNumber(v)] is [NaN]. *)
Definition isNaN (v : JsValue) : bool :=
  match v with
  | JsUndefined => true
  | JsNull => false
  | JsNum x => isNaNNumber x
  | JsStr s => stringToNumberIsNaN s
  end.

Definition typeofIsNumber (v : JsValue) : bool :=
  match v with
  | JsNum _ => true
  | _ => false
  end.

(** String conversion of an integer result that may be [NaN], as a
    template literal performs it. *)
Definition intToString (z : option Z) : string :=
  match z with
  | Some v => integerToString v
  | None => "NaN"
  end.

(** ** Dates

    A time value is a count of milliseconds since 1970-01-01T00:00:00Z.
    [newDate s] is the time value of [new Date(s)] for a date-only string
    [YYYY-MM-DD], which the language reads as midnight UTC; [None] stands
    for an invalid date.  What an engine makes of any other text is its own
    choice; the model reads such text as an invalid date. *)

Definition msPerDay : Z := 1000 * 60 * 60 * 24.

Definition isLeapYear (y : Z) : bool :=
  (y mod 4 =? 0) && (negb (y mod 100 =? 0) || (y mod 400 =? 0)).

Definition daysInMonth (y m : Z) : Z :=
  if m =? 2 then (if isLeapYear y then 29 else 28)
  else if (m =? 4) || (m =? 6) || (m =? 9) || (m =? 11) then 30
  else 31.

(** Day number of a civil date, day 0 being 1970-01-01. *)
Definition daysFromCivil (y m d : Z) : Z :=
  let y' := if m <=? 2 then y - 1 else y in
  let era := y' / 400 in
  let yoe := y' - era * 400 in
  let doy := (153 * (if 2 <? m then m - 3 else m + 9) + 2) / 5 + d - 1 in
  let doe := yoe * 365 + yoe / 4 - yoe / 100 + doy in
  era * 146097 + doe - 719468.

Fixpoint allDecimalDigits (s : string) : bool :=
  match s with
  | String c r => isDecimalDigit c && allDecimalDigits r
  | EmptyString => true
  end.

Definition newDate (s : string) : option Z :=
  let ys := substring 0 4 s in
  let ms := substring 5 2 s in
  let ds := substring 8 2 s in
  if (String.length s =? 10)%nat
     && String.eqb (substring 4 1 s) "-" && String.eqb (substring 7 1 s) "-"
     && allDecimalDigits ys && allDecimalDigits ms && allDecimalDigits ds
  then
    let y := mathInt 10 ys 0 in
    let m := mathInt 10 ms 0 in
    let d := mathInt 10 ds 0 in
    if (1 <=? m) && (m <=? 12) && (1 <=? d) && (d <=? daysInMonth y m)
    then Some (daysFromCivil y m d * msPerDay)
    else None
  else None.

(** [Math.ceil(a / b)] for integers [a] and [b > 0]. *)
Definition ceilDiv (a b : Z) : Z := - ((- a) / b).

End JS.

Import JS.

(* ================================================================== *)
(** * The report pipeline of [getCampaignData] *)
(* ================================================================== *)

(** ** Data *)

(** Outcome of an awaited call: a value, or a thrown error. *)
Inductive Result (A : Type) : Type :=
  | Ok (a : A)
  | Throw (message : string).
Arguments Ok {A} a.
Arguments Throw {A} message.

(** A row of the catalogue query, [campaignRow.campaign].  The identifier
    is the number the API reports, an integer; the end date may be
    missing. *)
Module CampaignRow.
Record t := {
  id : Z;
  name : string;
  start_date : string;
  end_date : option string;
  status : JsValue
}.
End CampaignRow.

(** [campaignInfo]. *)
Module CampaignInfo.
Record t := {
  id : Z;
  name : string;
  startDate : string;
  endDate : option string;
  status : JsValue;
  isPaused : bool
}.
End CampaignInfo.

(** A row of the metrics query: [row.segments.date] and the five fields of
    [row.metrics], each of which may hold anything. *)
Module MetricsRow.
Record t := {
  date : string;
  cost_micros : JsValue;
  conversions : JsValue;
  conversions_value : JsValue;
  impressions : JsValue;
  clicks : JsValue
}.
End MetricsRow.

(** The variables the [forEach] loop over the metric rows updates. *)
Module Totals.
Record t := {
  totalCost : Z;
  totalConversions : number;
  totalConversionsValue : number;
  totalImpressions : Z;
  totalClicks : Z;
  lastActiveDate : string
}.
End Totals.

(** A value of [campaignMap]: [campaignInfo] spread together with the
    derived fields.  [activeDays] is [None] when it is [NaN]. *)
Module Aggregated.
Record t := {
  info : CampaignInfo.t;
  lastActiveDate : string;
  activeDays : option Z;
  totalCost : Z;
  totalConversions : number;
  totalConversionsValue : number;
  totalImpressions : Z;
  totalClicks : Z
}.
End Aggregated.

(** An element of [formattedCampaigns]. *)
Module Report.
Record t := {
  campaignId : JsValue;
  campaignName : string;
  startDate : string;
  endDate : string;
  status : JsValue;
  activeDuration : string;
  totalCost : string;
  dailyAvgCost : string;
  totalConversions : string;
  totalConversionsValue : string;
  totalImpressions : Z;
  totalClicks : Z;
  ctr : string;
  averageCpc : string;
  costPerDay : string;
  isPaused : bool;
  lastActiveDate : string
}.
End Report.

(** The two copies of [getCampaignData] differ in one field of the output:
    the console report passes [campaign.id] on, the Firestore sync writes
    [campaign.id.toString()]. *)
Inductive SourceFile := ConsoleReport | FirestoreSync.

(** The collaborators of one run: the answer to the catalogue query and,
    for a campaign identifier and start date, the answer to the metrics
    query. *)
Record Customer := {
  campaignInfoQuery : Result (list CampaignRow.t);
  metricsQuery : Z -> string -> Result (list MetricsRow.t)
}.

(** What [new Date()] reads during the run: the time value of the present
    moment and the local calendar year. *)
Record Clock := {
  now : Z;
  currentYear : Z
}.

(** ** Per-campaign aggregation *)

Definition campaignInfoOf (campaignRow : CampaignRow.t) : CampaignInfo.t :=
  {| CampaignInfo.id := CampaignRow.id campaignRow;
     CampaignInfo.name := CampaignRow.name campaignRow;
     CampaignInfo.startDate := CampaignRow.start_date campaignRow;
     CampaignInfo.endDate := CampaignRow.end_date campaignRow;
     CampaignInfo.status := CampaignRow.status campaignRow;
     CampaignInfo.isPaused :=
       match parseInt (CampaignRow.status campaignRow) with
       | Some n => n =? 3
       | None => false
       end |}.

Definition initialTotals (startDate : string) : Totals.t :=
  {| Totals.totalCost := 0;
     Totals.totalConversions := zero;
     Totals.totalConversionsValue := zero;
     Totals.totalImpressions := 0;
     Totals.totalClicks := 0;
     Totals.lastActiveDate := startDate |}.

(** The body of [metricsResult.forEach]. *)
Definition addRow (acc : Totals.t) (row : MetricsRow.t) : Totals.t :=
  let cost := orZeroInt (parseInt (MetricsRow.cost_micros row)) in
  let conversions := orZero (parseFloat (MetricsRow.conversions row)) in
  let conversionsValue := orZero (parseFloat (MetricsRow.conversions_value row)) in
  let impressions := orZeroInt (parseInt (MetricsRow.impressions row)) in
  let clicks := orZeroInt (parseInt (MetricsRow.clicks row)) in
  let date := MetricsRow.date row in
  {| Totals.totalCost := Totals.totalCost acc + cost;
     Totals.totalConversions := fadd (Totals.totalConversions acc) conversions;
     Totals.totalConversionsValue :=
       fadd (Totals.totalConversionsValue acc) conversionsValue;
     Totals.totalImpressions := Totals.totalImpressions acc + impressions;
     Totals.totalClicks := Totals.totalClicks acc + clicks;
     Totals.lastActiveDate :=
       if (0 <? cost) || (0 <? impressions) || (0 <? clicks) then date
       else Totals.lastActiveDate acc |}.

Definition sumRows (startDate : string) (metricsResult : list MetricsRow.t) : Totals.t :=
  fold_left addRow metricsResult (initialTotals startDate).

(** [Math.ceil((endDateObj - startDateObj) / (1000 * 60 * 60 * 24)) + 1].
    Time values of calendar dates differ by less than 2^53 and their
    quotient by the length of a day, when not an integer, is further from
    every integer than the rounding of the division, so the ceiling is that
    of the exact quotient. *)
Definition activeDaysOf (startDate : string) (isPaused : bool)
    (lastActiveDate : string) (clock : Clock) : option Z :=
  let startDateObj := newDate startDate in
  let endDateObj := if isPaused then newDate lastActiveDate else Some (now clock) in
  match endDateObj, startDateObj with
  | Some e, Some s => Some (ceilDiv (e - s) msPerDay + 1)
  | _, _ => None
  end.

(** The zero-metrics record of the [catch] branch. *)
Definition fallbackRecord (campaignInfo : CampaignInfo.t) : Aggregated.t :=
  {| Aggregated.info := campaignInfo;
     Aggregated.lastActiveDate := CampaignInfo.startDate campaignInfo;
     Aggregated.activeDays := Some 1;
     Aggregated.totalCost := 0;
     Aggregated.totalConversions := zero;
     Aggregated.totalConversionsValue := zero;
     Aggregated.totalImpressions := 0;
     Aggregated.totalClicks := 0 |}.

(** The [try] block around the metrics query, and its [catch]. *)
Definition aggregateCampaign (clock : Clock) (campaignInfo : CampaignInfo.t)
    (metrics : Result (list MetricsRow.t)) : Aggregated.t :=
  match metrics with
  | Ok metricsResult =>
      let t := sumRows (CampaignInfo.startDate campaignInfo) metricsResult in
      {| Aggregated.info := campaignInfo;
         Aggregated.lastActiveDate := Totals.lastActiveDate t;
         Aggregated.activeDays :=
           activeDaysOf (CampaignInfo.startDate campaignInfo)
             (CampaignInfo.isPaused campaignInfo) (Totals.lastActiveDate t) clock;
         Aggregated.totalCost := Totals.totalCost t;
         Aggregated.totalConversions := Totals.totalConversions t;
         Aggregated.totalConversionsValue := Totals.totalConversionsValue t;
         Aggregated.totalImpressions := Totals.totalImpressions t;
         Aggregated.totalClicks := Totals.totalClicks t |}
  | Throw _ => fallbackRecord campaignInfo
  end.

(** ** [campaignMap]

    A [Map] keeps its keys in order of first insertion; setting a key
    that is present replaces the value in place. *)
Fixpoint mapSet {V : Type} (key : Z) (value : V) (m : list (Z * V)) : list (Z * V) :=
  match m with
  | [] => [(key, value)]
  | (k, v) :: rest =>
      if k =? key then (key, value) :: rest else (k, v) :: mapSet key value rest
  end.

Definition mapValues {V : Type} (m : list (Z * V)) : list V := map snd m.

(** One turn of the [for ... of campaignInfoResult] loop: the record that
    is stored for a campaign. *)
Definition processCampaign (customer : Customer) (clock : Clock)
    (campaignRow : CampaignRow.t) : Aggregated.t :=
  let campaignInfo := campaignInfoOf campaignRow in
  aggregateCampaign clock campaignInfo
    (metricsQuery customer (CampaignInfo.id campaignInfo)
       (CampaignInfo.startDate campaignInfo)).

(** The loop. *)
Definition collectCampaigns (customer : Customer) (clock : Clock)
    (campaignInfoResult : list CampaignRow.t) : list (Z * Aggregated.t) :=
  fold_left
    (fun campaignMap campaignRow =>
       let campaignId := CampaignRow.id campaignRow in
       mapSet campaignId (processCampaign customer clock campaignRow) campaignMap)
    campaignInfoResult [].

(** ** Formatting *)

Definition formatEndDate (endDate : option string) (isPaused : bool)
    (lastActiveDate : string) (clock : Clock) : string :=
  if isPaused then "Paused on " ++ lastActiveDate
  else
    match endDate with
    | None => "No end date"
    | Some EmptyString => "No end date"
    | Some date =>
        match parseIntString (beforeFirst "-" date) with
        | Some endYear =>
            if currentYear clock + 10 <? endYear then "No end date" else date
        | None => date
        end
    end.

Definition formatStatus (status : JsValue) (isPaused : bool)
    (activeDays : option Z) : JsValue :=
  let statusText :=
    if typeofIsNumber status || negb (isNaN status) then
      match parseInt status with
      | Some numericStatus =>
          if numericStatus =? 2 then JsStr "Active"
          else if numericStatus =? 3 then JsStr "Paused"
          else if numericStatus =? 4 then JsStr "Removed"
          else if numericStatus =? 5 then JsStr "Draft"
          else if numericStatus =? 6 then JsStr "Ended"
          else JsStr ("Unknown (" ++ ToString status ++ ")")
      | None => JsStr ("Unknown (" ++ ToString status ++ ")")
      end
    else
      match status with
      | JsStr s =>
          if String.eqb s "ENABLED" then JsStr "Active"
          else if String.eqb s "PAUSED" then JsStr "Paused"
          else if String.eqb s "REMOVED" then JsStr "Removed"
          else if String.eqb s "DRAFT" then JsStr "Draft"
          else if String.eqb s "ENDED" then JsStr "Ended"
          else if String.eqb s "UNKNOWN" then JsStr "Unknown"
          else status
      | _ => status
      end in
  if isPaused then
    JsStr (ToString statusText ++ " (Ran for " ++ intToString activeDays ++ " days)")
  else statusText.

Definition costInCurrency (campaign : Aggregated.t) : number :=
  fdiv (ofZ (Aggregated.totalCost campaign)) (ofZ 1000000).

Definition averageCpc (campaign : Aggregated.t) : number :=
  if 0 <? Aggregated.totalClicks campaign
  then fdiv (costInCurrency campaign) (ofZ (Aggregated.totalClicks campaign))
  else zero.

Definition dailyAvgCost (campaign : Aggregated.t) : number :=
  match Aggregated.activeDays campaign with
  | Some days =>
      if 0 <? days then fdiv (costInCurrency campaign) (ofZ days) else zero
  | None => zero
  end.

(** The callback of [campaigns.map]. *)
Definition formatCampaign (file : SourceFile) (clock : Clock)
    (campaign : Aggregated.t) : Report.t :=
  let campaignInfo := Aggregated.info campaign in
  {| Report.campaignId :=
       match file with
       | ConsoleReport => JsNum (ofZ (CampaignInfo.id campaignInfo))
       | FirestoreSync => JsStr (numberToString (ofZ (CampaignInfo.id campaignInfo)))
       end;
     Report.campaignName := CampaignInfo.name campaignInfo;
     Report.startDate := CampaignInfo.startDate campaignInfo;
     Report.endDate :=
       formatEndDate (CampaignInfo.endDate campaignInfo)
         (CampaignInfo.isPaused campaignInfo) (Aggregated.lastActiveDate campaign) clock;
     Report.status :=
       formatStatus (CampaignInfo.status campaignInfo)
         (CampaignInfo.isPaused campaignInfo) (Aggregated.activeDays campaign);
     Report.activeDuration := intToString (Aggregated.activeDays campaign) ++ " days";
     Report.totalCost := toFixed2 (costInCurrency campaign);
     Report.dailyAvgCost := toFixed2 (dailyAvgCost campaign);
     Report.totalConversions := toFixed2 (Aggregated.totalConversions campaign);
     Report.totalConversionsValue :=
       toFixed2 (Aggregated.totalConversionsValue campaign);
     Report.totalImpressions := Aggregated.totalImpressions campaign;
     Report.totalClicks := Aggregated.totalClicks campaign;
     Report.ctr :=
       if 0 <? Aggregated.totalImpressions campaign
       then toFixed2
              (fmul (fdiv (ofZ (Aggregated.totalClicks campaign))
                          (ofZ (Aggregated.totalImpressions campaign)))
                    (ofZ 100)) ++ "%"
       else "0%";
     Report.averageCpc := toFixed2 (averageCpc campaign);
     Report.costPerDay := toFixed2 (dailyAvgCost campaign);
     Report.isPaused := CampaignInfo.isPaused campaignInfo;
     Report.lastActiveDate := Aggregated.lastActiveDate campaign |}.

(** ** The entry point

    A failure of the catalogue query is logged and thrown again; a failure
    of a metrics query is caught inside the loop. *)
Definition getCampaignData (file : SourceFile) (customer : Customer)
    (clock : Clock) : Result (list Report.t) :=
  match campaignInfoQuery customer with
  | Ok campaignInfoResult =>
      let campaignMap := collectCampaigns customer clock campaignInfoResult in
      let campaigns := mapValues campaignMap in
      Ok (map (formatCampaign file clock) campaigns)
  | Throw error => Throw error
  end.

(* ================================================================== *)
(** * Vocabulary of the specification *)
(* ================================================================== *)

(** ** Aggregation *)

(** What a row contributes to each total. *)
Definition costOf (row : MetricsRow.t) : Z :=
  orZeroInt (parseInt (MetricsRow.cost_micros row)).
Definition impressionsOf (row : MetricsRow.t) : Z :=
  orZeroInt (parseInt (MetricsRow.impressions row)).
Definition clicksOf (row : MetricsRow.t) : Z :=
  orZeroInt (parseInt (MetricsRow.clicks row)).
Definition conversionsOf (row : MetricsRow.t) : number :=
  orZero (parseFloat (MetricsRow.conversions row)).
Definition conversionsValueOf (row : MetricsRow.t) : number :=
  orZero (parseFloat (MetricsRow.conversions_value row)).

(** Sum of a column of integers, and of a column of numbers added from
    the left starting at [+0]. *)
Definition sumInt (column : list Z) : Z := fold_right Z.add 0 column.
Definition sumNumber (column : list number) : number := fold_left fadd column zero.

(** A row shows activity: cost, impressions or clicks above zero. *)
Definition hasActivity (row : MetricsRow.t) : bool :=
  (0 <? costOf row) || (0 <? impressionsOf row) || (0 <? clicksOf row).

(** Dates in [YYYY-MM-DD] form are ordered as their texts are. *)
Definition dateLe (a b : string) : Prop := String.leb a b = true.

Definition laterDate (a b : string) : string := if String.leb a b then b else a.

(** The maximum of [startDate] and the dates of the rows with activity. *)
Definition latestActivity (startDate : string) (rows : list MetricsRow.t) : string :=
  fold_right laterDate startDate (map MetricsRow.date (filter hasActivity rows)).

(** Every field of the row that parses to a number is at least zero. *)
Definition fieldsNonNegative (row : MetricsRow.t) : Prop :=
  (forall z, parseInt (MetricsRow.cost_micros row) = Some z -> 0 <= z) /\
  (forall z, parseInt (MetricsRow.impressions row) = Some z -> 0 <= z) /\
  (forall z, parseInt (MetricsRow.clicks row) = Some z -> 0 <= z) /\
  (isNaNNumber (parseFloat (MetricsRow.conversions row)) = false ->
   nonNegative (parseFloat (MetricsRow.conversions row)) = true) /\
  (isNaNNumber (parseFloat (MetricsRow.conversions_value row)) = false ->
   nonNegative (parseFloat (MetricsRow.conversions_value row)) = true).

(** The number carries the sign [sx] and is not [NaN]. *)
Definition hasSign (sx : bool) (x : number) : Prop :=
  match x with
  | S754_zero s => s = sx
  | S754_infinity s => s = sx
  | S754_finite s _ _ => s = sx
  | S754_nan => False
  end.

(** ** Rendering *)

(** Digits, a point and exactly two digits. *)
Definition unsignedTwoDecimals (s : string) : bool :=
  match span isDecimalDigit s with
  | (EmptyString, _) => false
  | (_, String "." (String a (String b EmptyString))) =>
      isDecimalDigit a && isDecimalDigit b
  | _ => false
  end.

(** A numeral with exactly two decimal places, with or without a sign. *)
Definition hasTwoDecimals (s : string) : bool :=
  unsignedTwoDecimals s
  || match s with
     | String "-" r => unsignedTwoDecimals r
     | _ => false
     end.

(** The numbers [toFixed2] renders in fixed notation: zero, and the finite
    numbers below 10^21 in magnitude. *)
Definition inFixedRange (x : number) : bool :=
  match x with
  | S754_zero _ => true
  | S754_finite _ m e =>
      match cmpDecBin 1 21 (Zpos m) e with
      | Gt => true
      | _ => false
      end
  | _ => false
  end.

(** The number a consumer reads back from a rendered value is zero. *)
Definition readsAsZero (s : string) : bool :=
  match parseFloatString s with
  | S754_zero _ => true
  | _ => false
  end.

(** The number of which [ctr] is the rendering, for positive impressions. *)
Definition ctrValue (campaign : Aggregated.t) : number :=
  fmul (fdiv (ofZ (Aggregated.totalClicks campaign))
             (ofZ (Aggregated.totalImpressions campaign)))
       (ofZ 100).

(** ** Status labels *)

Definition numericStatusTable : list (Z * string) :=
  [(2, "Active"); (3, "Paused"); (4, "Removed"); (5, "Draft"); (6, "Ended")].

Definition namedStatusTable : list (string * string) :=
  [("ENABLED", "Active"); ("PAUSED", "Paused"); ("REMOVED", "Removed");
   ("DRAFT", "Draft"); ("ENDED", "Ended"); ("UNKNOWN", "Unknown")].

Fixpoint lookup {K V : Type} (eqb : K -> K -> bool) (table : list (K * V)) (key : K) : option V :=
  match table with
  | [] => None
  | (k, v) :: rest => if eqb key k then Some v else lookup eqb rest key
  end.

(** A status is taken as a numeric code when it is a number or converts
    to one. *)
Definition isNumericCode (status : JsValue) : bool :=
  typeofIsNumber status || negb (isNaN status).

(** The label of a status: a numeric code is looked up by the integer it
    starts with and, when unmapped, shown as [Unknown (<raw value>)]; any
    other value is looked up by name and, when unmapped, passed on as it
    is. *)
Definition statusLabel (status : JsValue) : JsValue :=
  if isNumericCode status then
    match parseInt status with
    | Some code =>
        match lookup Z.eqb numericStatusTable code with
        | Some label => JsStr label
        | None => JsStr ("Unknown (" ++ ToString status ++ ")")
        end
    | None => JsStr ("Unknown (" ++ ToString status ++ ")")
    end
  else
    match status with
    | JsStr s =>
        match lookup String.eqb namedStatusTable s with
        | Some label => JsStr label
        | None => status
        end
    | _ => status
    end.

Definition ranForSuffix (activeDays : option Z) : string :=
  " (Ran for " ++ intToString activeDays ++ " days)".

(** ** End-date labels *)

(** The year of an end date: the integer its text starts with, up to the
    first hyphen. *)
Definition endYearOf (endDate : string) : option Z :=
  parseIntString (beforeFirst "-" endDate).

(** The label of an end date, case by case. *)
Inductive EndDateLabel (endDate : option string) (isPaused : bool)
    (lastActiveDate : string) (currentYear : Z) : string -> Prop :=
  | label_paused :
      isPaused = true ->
      EndDateLabel endDate isPaused lastActiveDate currentYear
        ("Paused on " ++ lastActiveDate)
  | label_absent :
      isPaused = false ->
      endDate = None \/ endDate = Some EmptyString ->
      EndDateLabel endDate isPaused lastActiveDate currentYear "No end date"
  | label_far_future date year :
      isPaused = false ->
      endDate = Some date -> date <> EmptyString ->
      endYearOf date = Some year -> currentYear + 10 < year ->
      EndDateLabel endDate isPaused lastActiveDate currentYear "No end date"
  | label_literal date :
      isPaused = false ->
      endDate = Some date -> date <> EmptyString ->
      (forall year, endYearOf date = Some year -> year <= currentYear + 10) ->
      EndDateLabel endDate isPaused lastActiveDate currentYear date.

(* ================================================================== *)
(** * Sample inputs *)
(* ================================================================== *)

Definition num (z : Z) : JsValue := JsNum (ofZ z).

(** A day with spend, ten impressions and one click. *)
Definition activeDay (date conversions : string) : MetricsRow.t :=
  {| MetricsRow.date := date;
     MetricsRow.cost_micros := num 1000000;
     MetricsRow.conversions := JsStr conversions;
     MetricsRow.conversions_value := num 0;
     MetricsRow.impressions := num 10;
     MetricsRow.clicks := num 1 |}.

Definition rowsAscending : list MetricsRow.t :=
  [activeDay "2024-01-01" "0.3"; activeDay "2024-01-02" "0.2";
   activeDay "2024-01-03" "0.1"].

Definition rowsDescending : list MetricsRow.t :=
  [activeDay "2024-01-03" "0.1"; activeDay "2024-01-02" "0.2";
   activeDay "2024-01-01" "0.3"].

(** The clock at 2025-11-02T00:00:00Z. *)
Definition sampleClock : Clock :=
  {| now := 1762041600000; currentYear := 2025 |}.

Definition campaignRow (id : Z) (start_date : string) (end_date : option string)
    (status : JsValue) : CampaignRow.t :=
  {| CampaignRow.id := id;
     CampaignRow.name := "Campaign " ++ integerToString id;
     CampaignRow.start_date := start_date;
     CampaignRow.end_date := end_date;
     CampaignRow.status := status |}.

(** An enabled campaign that is scheduled to start in 2030. *)
Definition scheduledCampaign : CampaignInfo.t :=
  campaignInfoOf (campaignRow 11 "2030-01-01" None (num 2)).

(** A paused campaign that started on 2024-01-01. *)
Definition pausedCampaign : CampaignInfo.t :=
  campaignInfoOf (campaignRow 12 "2024-01-01" (Some "2037-12-30") (num 3)).

(** An enabled campaign that started on 2024-01-01. *)
Definition enabledCampaign : CampaignInfo.t :=
  campaignInfoOf (campaignRow 13 "2024-01-01" (Some "2037-12-30") (num 2)).

Definition metricsDay (date : string) (cost impressions clicks : Z) : MetricsRow.t :=
  {| MetricsRow.date := date;
     MetricsRow.cost_micros := num cost;
     MetricsRow.conversions := num 0;
     MetricsRow.conversions_value := num 0;
     MetricsRow.impressions := num impressions;
     MetricsRow.clicks := num clicks |}.

(** Activity through 2024-01-10, none on the day after. *)
Definition tenDays : list MetricsRow.t :=
  [metricsDay "2024-01-01" 1000000 50 2; metricsDay "2024-01-10" 4000000 150 8;
   metricsDay "2024-01-11" 0 0 0].

(** Impressions without a click, and clicks that cost nothing. *)
Definition shownNotClicked : Aggregated.t :=
  aggregateCampaign sampleClock enabledCampaign
    (Ok [metricsDay "2024-01-01" 0 200 0]).
Definition clickedForFree : Aggregated.t :=
  aggregateCampaign sampleClock enabledCampaign
    (Ok [metricsDay "2024-01-01" 0 200 5]).

(** Five campaigns; the metrics query of the third one fails. *)
Definition fiveCampaigns : list CampaignRow.t :=
  [campaignRow 101 "2024-01-01" (Some "2037-12-30") (num 2);
   campaignRow 102 "2024-01-01" (Some "2037-12-30") (num 3);
   campaignRow 103 "2024-02-01" (Some "2037-12-30") (num 2);
   campaignRow 104 "2024-01-01" None (num 3);
   campaignRow 105 "2024-01-01" (Some "2026-06-30") (num 2)].

Definition oneFailure : Customer :=
  {| campaignInfoQuery := Ok fiveCampaigns;
     metricsQuery := fun id _ =>
       if id =? 103 then Throw "deadline exceeded" else Ok tenDays |}.

(** Two rows whose conversions read [Infinity] and [-Infinity]. *)
Definition oppositeInfinities : list MetricsRow.t :=
  [activeDay "2024-01-01" "Infinity"; activeDay "2024-01-02" "-Infinity"].

(** A row with a missing, a null, an empty and a non-numeric field. *)
Definition damagedRows : list MetricsRow.t :=
  [ {| MetricsRow.date := "2024-01-01";
       MetricsRow.cost_micros := JsUndefined;
       MetricsRow.conversions := JsNull;
       MetricsRow.conversions_value := JsStr "n/a";
       MetricsRow.impressions := JsStr "";
       MetricsRow.clicks := JsStr "7" |};
    metricsDay "2024-01-02" 2500000 40 3 ].

(** A day whose cost field is the text of 10^27 micros. *)
Definition hugeSpend : Aggregated.t :=
  aggregateCampaign sampleClock enabledCampaign
    (Ok [ {| MetricsRow.date := "2024-01-01";
             MetricsRow.cost_micros := JsStr "1000000000000000000000000000";
             MetricsRow.conversions := num 0;
             MetricsRow.conversions_value := num 0;
             MetricsRow.impressions := num 0;
             MetricsRow.clicks := num 0 |} ]).



(* ================================================================== *)
(** * The callers and the consumers of the report *)
(* ================================================================== *)

(** ** The entry points of the console report

    There [getCampaignData] takes a date range as well: a range name and,
    for a custom range, a start and an end date. *)
Definition getCampaignDataIn (customer : Customer) (clock : Clock)
    (dateRange startDate endDate : JsValue) : Result (list Report.t) :=
  getCampaignData ConsoleReport customer clock.

Definition getOverallCampaignData (customer : Customer) (clock : Clock)
    : Result (list Report.t) :=
  getCampaignDataIn customer clock JsNull JsNull JsNull.

Definition getCampaignDataCustomRange (customer : Customer) (clock : Clock)
    (startDate endDate : JsValue) : Result (list Report.t) :=
  getCampaignDataIn customer clock (JsStr "CUSTOM") startDate endDate.

Definition getCampaignDataPredefined (customer : Customer) (clock : Clock)
    (range : JsValue) : Result (list Report.t) :=
  getCampaignDataIn customer clock range JsNull JsNull.

(** ** The summary of [example]

    [campaigns.reduce((sum, c) => sum + parseFloat(c.field), 0)]. *)
Definition sumRendered (field : Report.t -> string) (campaigns : list Report.t)
    : number :=
  fold_left (fun sum c => fadd sum (parseFloatString (field c))) campaigns zero.

(** The four lines printed under [=== SUMMARY ===]. *)
Definition summaryLines (campaigns : list Report.t) : list string :=
  ["Total Campaigns: " ++ integerToString (Z.of_nat (List.length campaigns));
   "Total Cost: $" ++ toFixed2 (sumRendered Report.totalCost campaigns);
   "Total Conversions: " ++ toFixed2 (sumRendered Report.totalConversions campaigns);
   "Total Conversion Value: $"
     ++ toFixed2 (sumRendered Report.totalConversionsValue campaigns)].

(** ** The Firestore sync

    [s.trim()]. *)
Fixpoint trimEnd (s : string) : string :=
  match s with
  | EmptyString => EmptyString
  | String c r =>
      match trimEnd r with
      | EmptyString => if isWhiteSpace c then EmptyString else String c EmptyString
      | r' => String c r'
      end
  end.

Definition trim (s : string) : string := trimEnd (trimStart s).

(** A field of a stored document: a value as above, or a boolean. *)
Inductive FieldValue :=
  | FieldOf (v : JsValue)
  | FieldBool (b : bool).

(** A document is a set of named fields; the collection
    [google_ads_campaigns] maps document identifiers to documents. *)
Definition Document := list (string * FieldValue).
Definition Firestore := list (string * Document).

(** The record as the object that is written. *)
Definition reportFields (campaign : Report.t) : Document :=
  [("campaignId", FieldOf (Report.campaignId campaign));
   ("campaignName", FieldOf (JsStr (Report.campaignName campaign)));
   ("startDate", FieldOf (JsStr (Report.startDate campaign)));
   ("endDate", FieldOf (JsStr (Report.endDate campaign)));
   ("status", FieldOf (Report.status campaign));
   ("activeDuration", FieldOf (JsStr (Report.activeDuration campaign)));
   ("totalCost", FieldOf (JsStr (Report.totalCost campaign)));
   ("dailyAvgCost", FieldOf (JsStr (Report.dailyAvgCost campaign)));
   ("totalConversions", FieldOf (JsStr (Report.totalConversions campaign)));
   ("totalConversionsValue", FieldOf (JsStr (Report.totalConversionsValue campaign)));
   ("totalImpressions", FieldOf (JsNum (ofZ (Report.totalImpressions campaign))));
   ("totalClicks", FieldOf (JsNum (ofZ (Report.totalClicks campaign))));
   ("ctr", FieldOf (JsStr (Report.ctr campaign)));
   ("averageCpc", FieldOf (JsStr (Report.averageCpc campaign)));
   ("costPerDay", FieldOf (JsStr (Report.costPerDay campaign)));
   ("isPaused", FieldBool (Report.isPaused campaign));
   ("lastActiveDate", FieldOf (JsStr (Report.lastActiveDate campaign)))].

(** Writing under a name: in place when the name is present, at the end
    otherwise. *)
Fixpoint assocSet {V : Type} (key : string) (value : V) (m : list (string * V))
    : list (string * V) :=
  match m with
  | [] => [(key, value)]
  | (k, v) :: rest =>
      if String.eqb k key then (key, value) :: rest
      else (k, v) :: assocSet key value rest
  end.

(** [docRef.set(data, { merge: true })] on the fields of a document. *)
Definition mergeFields (data doc : Document) : Document :=
  fold_left (fun d field => assocSet (fst field) (snd field) d) data doc.

(** The identifier under which a record is stored: [campaignId] when it is
    a string with something other than white space in it; a record without
    one is skipped. *)
Definition documentId (campaign : Report.t) : option string :=
  match Report.campaignId campaign with
  | JsStr s => if String.eqb (trim s) EmptyString then None else Some s
  | _ => None
  end.

(** One turn of the loop of [saveGoogleAdsDataToFirestore].  [rejects]
    tells for which records reading or writing the document throws; the
    error is caught and nothing is written. *)
Definition saveCampaign (rejects : Report.t -> bool) (db : Firestore)
    (campaign : Report.t) : Firestore :=
  match documentId campaign with
  | None => db
  | Some docId =>
      if rejects campaign then db
      else
        match lookup String.eqb db docId with
        | Some doc => assocSet docId (mergeFields (reportFields campaign) doc) db
        | None => assocSet docId (reportFields campaign) db
        end
  end.

Definition saveGoogleAdsDataToFirestore (rejects : Report.t -> bool)
    (campaigns : list Report.t) (db : Firestore) : Firestore :=
  fold_left (saveCampaign rejects) campaigns db.

(** [overAllData]: a failure of [getCampaignData] is caught and logged. *)
Definition overAllData (customer : Customer) (clock : Clock)
    (rejects : Report.t -> bool) (db : Firestore) : Firestore :=
  match getCampaignData FirestoreSync customer clock with
  | Ok campaigns => saveGoogleAdsDataToFirestore rejects campaigns db
  | Throw _ => db
  end.

(** The value of a field of a stored document. *)
Definition fieldOf (db : Firestore) (docId name : string) : option FieldValue :=
  match lookup String.eqb db docId with
  | Some doc => lookup String.eqb doc name
  | None => None
  end.

(** ** The date window of the per-campaign metrics report

    [s.replace(/-/g, '')]. *)
Fixpoint removeHyphens (s : string) : string :=
  match s with
  | EmptyString => EmptyString
  | String c r => if Ascii.eqb c "-" then removeHyphens r else String c (removeHyphens r)
  end.

(** What [new Date()] reads there: the local year, month (from 0) and day
    of the month. *)
Record Today := {
  getFullYear : Z;
  getMonth : Z;
  getDate : Z
}.

(** [n < 10 ? '0' + n : n], as a template literal prints it. *)
Definition padded (n : Z) : string :=
  if n <? 10 then "0" ++ integerToString n else integerToString n.

Definition todayCompact (today : Today) : string :=
  integerToString (getFullYear today)
  ++ padded (getMonth today + 1) ++ padded (getDate today).

(** The bounds that [getCampaignMetrics] puts into
    [segments.date BETWEEN "..." AND "..."], computed from a record of the
    report. *)
Definition metricsWindow (today : Today) (campaign : Report.t) : string * string :=
  let startDate := removeHyphens (Report.startDate campaign) in
  let endDate :=
    if Report.isPaused campaign then removeHyphens (Report.lastActiveDate campaign)
    else removeHyphens (Report.endDate campaign) in
  let endDate :=
    if String.eqb (Report.endDate campaign) "No end date" then todayCompact today
    else if prefix "Paused on " endDate
         then substring 10 (String.length endDate - 10) endDate
         else endDate in
  (startDate, endDate).

(** A text of eight decimal digits. *)
Definition isCompactDate (s : string) : bool :=
  (String.length s =? 8)%nat && allDecimalDigits s.

(** A text of the shape [YYYY-MM-DD]. *)
Definition isIsoDate (s : string) : bool :=
  (String.length s =? 10)%nat
  && String.eqb (substring 4 1 s) "-" && String.eqb (substring 7 1 s) "-"
  && allDecimalDigits (substring 0 4 s) && allDecimalDigits (substring 5 2 s)
  && allDecimalDigits (substring 8 2 s).

(** First occurrences, in order. *)
Fixpoint firstOccurrences (seen ids : list Z) : list Z :=
  match ids with
  | [] => []
  | id :: rest =>
      if existsb (Z.eqb id) seen then firstOccurrences seen rest
      else id :: firstOccurrences (id :: seen) rest
  end.

(** The text begins with something other than white space. *)
Definition startsVisible (s : string) : bool :=
  match s with
  | String c _ => negb (isWhiteSpace c)
  | EmptyString => false
  end.

(** What one record does to the field [name] of the document [docId],
    whose value was [previous]. *)
Definition writes (rejects : Report.t -> bool) (docId name : string)
    (previous : option FieldValue) (campaign : Report.t) : option FieldValue :=
  match documentId campaign with
  | Some id =>
      if negb (rejects campaign) && String.eqb docId id then
        match lookup String.eqb (reportFields campaign) name with
        | Some value => Some value
        | None => previous
        end
      else previous
  | None => previous
  end.

(** The day of the sample clock. *)
Definition sampleToday : Today :=
  {| getFullYear := 2025; getMonth := 10; getDate := 2 |}.

(** A batch of three records, the first two under one identifier. *)
Definition sampleBatch : list Report.t :=
  map (formatCampaign FirestoreSync sampleClock)
    [aggregateCampaign sampleClock pausedCampaign (Ok tenDays);
     fallbackRecord pausedCampaign;
     fallbackRecord enabledCampaign].

(* ================================================================== *)
(** * Properties *)
(* ================================================================== *)

(** ** The built-ins on known values *)

Example parseInt_known :
  map parseInt [num 3; JsStr "3"; JsStr " 42px"; JsStr "0x1F"; JsStr "PAUSED";
                JsStr ""; JsUndefined; JsNull; JsNum (S754_finite false 5 (-1))]
  = [Some 3; Some 3; Some 42; Some 31; None; None; None; None; Some 2].
Proof. vm_compute. reflexivity. Qed.

Example parseFloat_known :
  map parseFloat [JsStr "0.5"; JsStr "1e3"; JsStr "12.5abc"; JsStr "abc";
                  JsUndefined; JsStr "-Infinity"; num 7]
  = [S754_finite false 4503599627370496 (-53);
     S754_finite false 8796093022208000 (-43);
     S754_finite false 7036874417766400 (-49);
     nan; nan; S754_infinity true;
     S754_finite false 7881299347898368 (-50)].
Proof. vm_compute. reflexivity. Qed.

Example isNaN_known :
  map isNaN [JsStr "3"; JsStr " 3 "; JsStr ""; JsStr "3abc"; JsStr "PAUSED";
             JsStr "0x3"; JsStr "1e5"; JsStr "1e"; JsNull; JsUndefined; num 3;
             JsNum nan]
  = [false; false; false; true; true; false; false; true; false; true; false; true].
Proof. vm_compute. reflexivity. Qed.

Example numberToString_known :
  map numberToString
    [ofZ 0; ofZ 42; ofZ (-7); parseFloatString "0.1"; parseFloatString "2.50";
     fadd (parseFloatString "0.1") (parseFloatString "0.2");
     ofZ (10 ^ 21); parseFloatString "1e-7"; nan; S754_infinity false]
  = ["0"; "42"; "-7"; "0.1"; "2.5"; "0.30000000000000004"; "1e+21"; "1e-7";
     "NaN"; "Infinity"].
Proof. vm_compute. reflexivity. Qed.

Example toFixed2_known :
  map toFixed2
    [ofZ 5; parseFloatString "0.5"; parseFloatString "0.125";
     parseFloatString "1.005"; parseFloatString "-0.001"; S754_zero true;
     ofZ (10 ^ 21); nan]
  = ["5.00"; "0.50"; "0.13"; "1.00"; "-0.00"; "0.00"; "1e+21"; "NaN"].
Proof. vm_compute. reflexivity. Qed.

Example newDate_known :
  map newDate ["1970-01-01"; "2024-01-01"; "2024-02-29"; "2025-11-02";
               "2023-02-29"; "2024-13-01"; "2024-1-1"; ""]
  = [Some 0; Some 1704067200000; Some 1709164800000; Some 1762041600000;
     None; None; None; None].
Proof. vm_compute. reflexivity. Qed.

(** ** The scenarios of the specification *)

(** Paused campaign started 2024-01-01 with activity through 2024-01-10;
    totals of 5,000,000 micros, 10 clicks and 200 impressions. *)
Example paused_scenario :
  let report :=
    formatCampaign ConsoleReport sampleClock
      (aggregateCampaign sampleClock pausedCampaign (Ok tenDays)) in
  Report.lastActiveDate report = "2024-01-10" /\
  Report.activeDuration report = "10 days" /\
  Report.status report = JsStr "Paused (Ran for 10 days)" /\
  Report.endDate report = "Paused on 2024-01-10" /\
  Report.totalCost report = "5.00" /\
  Report.averageCpc report = "0.50" /\
  Report.ctr report = "5.00%".
Proof. vm_compute. repeat split; reflexivity. Qed.

(** The zero-metrics fallback. *)
Example fallback_scenario :
  let report :=
    formatCampaign ConsoleReport sampleClock (fallbackRecord enabledCampaign) in
  Report.totalCost report = "0.00" /\
  Report.ctr report = "0%" /\
  Report.averageCpc report = "0.00" /\
  Report.activeDuration report = "1 days" /\
  Report.endDate report = "No end date".
Proof. vm_compute. repeat split; reflexivity. Qed.

Lemma last_cons_default {A : Type} (x : A) (l : list A) (d d' : A) :
  last (x :: l) d = last (x :: l) d'.
Proof.
  revert x. induction l as [|y l IH]; intros x; [reflexivity|].
  change (last (y :: l) d = last (y :: l) d'). apply IH.
Qed.

(** ** The loop as column sums *)

Section Loop.

Variable rows : list MetricsRow.t.

Lemma fold_addRow_totalCost : forall acc,
  Totals.totalCost (fold_left addRow rows acc)
  = Totals.totalCost acc + sumInt (map costOf rows).
Proof.
  induction rows as [|row rest IH]; intros acc; simpl.
  - lia.
  - rewrite IH. simpl. unfold costOf. lia.
Qed.

Lemma fold_addRow_totalImpressions : forall acc,
  Totals.totalImpressions (fold_left addRow rows acc)
  = Totals.totalImpressions acc + sumInt (map impressionsOf rows).
Proof.
  induction rows as [|row rest IH]; intros acc; simpl.
  - lia.
  - rewrite IH. simpl. unfold impressionsOf. lia.
Qed.

Lemma fold_addRow_totalClicks : forall acc,
  Totals.totalClicks (fold_left addRow rows acc)
  = Totals.totalClicks acc + sumInt (map clicksOf rows).
Proof.
  induction rows as [|row rest IH]; intros acc; simpl.
  - lia.
  - rewrite IH. simpl. unfold clicksOf. lia.
Qed.

Lemma fold_addRow_totalConversions : forall acc,
  Totals.totalConversions (fold_left addRow rows acc)
  = fold_left fadd (map conversionsOf rows) (Totals.totalConversions acc).
Proof.
  induction rows as [|row rest IH]; intros acc; simpl.
  - reflexivity.
  - rewrite IH. reflexivity.
Qed.

Lemma fold_addRow_totalConversionsValue : forall acc,
  Totals.totalConversionsValue (fold_left addRow rows acc)
  = fold_left fadd (map conversionsValueOf rows) (Totals.totalConversionsValue acc).
Proof.
  induction rows as [|row rest IH]; intros acc; simpl.
  - reflexivity.
  - rewrite IH. reflexivity.
Qed.

Lemma fold_addRow_lastActiveDate : forall acc,
  Totals.lastActiveDate (fold_left addRow rows acc)
  = last (map MetricsRow.date (filter hasActivity rows)) (Totals.lastActiveDate acc).
Proof.
  induction rows as [|row rest IH]; intros acc.
  - reflexivity.
  - cbn [fold_left filter]. rewrite IH.
    unfold hasActivity at 2, costOf, impressionsOf, clicksOf.
    cbn [addRow Totals.lastActiveDate].
    destruct ((0 <? orZeroInt (parseInt (MetricsRow.cost_micros row)))
              || (0 <? orZeroInt (parseInt (MetricsRow.impressions row)))
              || (0 <? orZeroInt (parseInt (MetricsRow.clicks row)))).
    + cbn [map].
      destruct (map MetricsRow.date (filter hasActivity rest)) as [|d ds];
        [reflexivity|].
      change (last (d :: ds) (MetricsRow.date row) = last (d :: ds) (Totals.lastActiveDate acc)).
      apply last_cons_default.
    + reflexivity.
Qed.

End Loop.

Lemma sumInt_Permutation (xs ys : list Z) :
  Permutation xs ys -> sumInt xs = sumInt ys.
Proof.
  induction 1; simpl; lia.
Qed.

(** ** Order of dates *)

Lemma ascii_compare_trans_le (a b c : ascii) :
  Ascii.compare a b <> Gt -> Ascii.compare b c <> Gt -> Ascii.compare a c <> Gt.
Proof.
  unfold Ascii.compare. rewrite !N.compare_le_iff. lia.
Qed.

Lemma string_leb_trans (a b c : string) :
  String.leb a b = true -> String.leb b c = true -> String.leb a c = true.
Proof.
  unfold String.leb. revert b c.
  induction a as [|x a IH]; intros [|y b] [|z c]; simpl; try congruence.
  unfold Ascii.compare.
  destruct (N.compare_spec (N_of_ascii x) (N_of_ascii y)) as [E1|L1|G1];
  destruct (N.compare_spec (N_of_ascii y) (N_of_ascii z)) as [E2|L2|G2];
  destruct (N.compare_spec (N_of_ascii x) (N_of_ascii z)) as [E3|L3|G3];
  try congruence; try lia.
  apply IH.
Qed.

Lemma string_leb_refl (a : string) : String.leb a a = true.
Proof.
  destruct (String.leb_total a a); assumption.
Qed.

Lemma laterDate_of_le (a b : string) : dateLe a b -> laterDate a b = b.
Proof. unfold dateLe, laterDate. intros ->. reflexivity. Qed.

Lemma laterDate_of_ge (a b : string) : dateLe b a -> laterDate a b = a.
Proof.
  unfold dateLe, laterDate. intros H.
  destruct (String.leb a b) eqn:E; [|reflexivity].
  apply String.leb_antisym; assumption.
Qed.

(** In a list of dates in ascending order, none before [start], the
    maximum is the last one. *)
Lemma latest_of_sorted (start : string) (ds : list string) :
  Sorted dateLe ds -> Forall (dateLe start) ds ->
  fold_right laterDate start ds = last ds start.
Proof.
  intros Hs Hf.
  apply Sorted_StronglySorted in Hs;
    [|intros x y z; apply string_leb_trans].
  induction Hs as [|d ds Hs IH Hd]; [reflexivity|].
  inversion Hf as [|? ? Hd0 Hf']; subst.
  cbn [fold_right]. rewrite (IH Hf').
  destruct ds as [|d' ds'].
  - simpl. apply laterDate_of_ge. assumption.
  - change (last (d :: d' :: ds') start) with (last (d' :: ds') start).
    apply laterDate_of_le.
    assert (In (last (d' :: ds') start) (d' :: ds')) as Hin.
    { clear. generalize d'. induction ds' as [|e es IHe]; intros x.
      - left. reflexivity.
      - right. apply (IHe e). }
    rewrite Forall_forall in Hd. apply Hd. assumption.
Qed.

Lemma StronglySorted_map_filter {A B : Type} (R : B -> B -> Prop) (f : A -> B)
    (p : A -> bool) (l : list A) :
  StronglySorted R (map f l) -> StronglySorted R (map f (filter p l)).
Proof.
  induction l as [|a l IH]; intros H; [exact H|].
  cbn [map] in H. inversion H as [|? ? Hl Ha]; subst.
  cbn [filter]. destruct (p a); [|apply IH; assumption].
  cbn [map]. constructor; [apply IH; assumption|].
  rewrite Forall_forall in *. intros b Hb.
  apply Ha. rewrite in_map_iff in *.
  destruct Hb as (x & Hx & Hin). exists x. split; [assumption|].
  apply filter_In in Hin. tauto.
Qed.

(** ** C1: order of the rows *)




(** ** C2: the active window *)

Lemma ceilDiv_nonneg (a b : Z) : 0 <= a -> 0 < b -> 0 <= ceilDiv a b.
Proof.
  intros Ha Hb. unfold ceilDiv.
  assert (- a / b <= 0); [|lia].
  apply Z.div_le_upper_bound; lia.
Qed.

(** C2 (as amended).  The zero-metrics fallback has [activeDays = 1].  A
    campaign whose metrics were fetched has
    [activeDays = ceil((effective end - start) / one day) + 1], where the
    effective end is [lastActiveDate] when paused and the present moment
    otherwise; this is at least 1 whenever the effective end is not before
    the start.  A negative span is not clamped. *)
Theorem activeDays_from_span (clock : Clock) (campaignInfo : CampaignInfo.t)
    (metrics : Result (list MetricsRow.t)) :
  let campaign := aggregateCampaign clock campaignInfo metrics in
  (forall message, metrics = Throw message ->
     Aggregated.activeDays campaign = Some 1) /\
  (forall rows startTime endTime,
     metrics = Ok rows ->
     newDate (CampaignInfo.startDate campaignInfo) = Some startTime ->
     (if CampaignInfo.isPaused campaignInfo
      then newDate (Aggregated.lastActiveDate campaign)
      else Some (now clock)) = Some endTime ->
     Aggregated.activeDays campaign
       = Some (ceilDiv (endTime - startTime) msPerDay + 1) /\
     (startTime <= endTime ->
      exists days, Aggregated.activeDays campaign = Some days /\ 1 <= days)).
Proof.
  cbv zeta. split.
  - intros message ->. reflexivity.
  - intros rows startTime endTime -> Hstart Hend.
    cbn [aggregateCampaign Aggregated.activeDays Aggregated.lastActiveDate] in *.
    unfold activeDaysOf. rewrite Hstart, Hend.
    split; [reflexivity|].
    intros Hle. eexists. split; [reflexivity|].
    pose proof (ceilDiv_nonneg (endTime - startTime) msPerDay).
    unfold msPerDay in *. lia.
Qed.

Lemma activeDays_from_span_witness :
  Aggregated.activeDays (aggregateCampaign sampleClock pausedCampaign (Ok tenDays))
    = Some (ceilDiv (1704844800000 - 1704067200000) msPerDay + 1) /\
  exists days,
    Aggregated.activeDays (aggregateCampaign sampleClock pausedCampaign (Ok tenDays))
      = Some days /\ 1 <= days.
Proof.
  destruct (activeDays_from_span sampleClock pausedCampaign (Ok tenDays)) as [_ H].
  destruct (H tenDays 1704067200000 1704844800000) as [Heq Hle];
    try (vm_compute; reflexivity).
  split; [exact Heq|]. apply Hle. lia.
Defined.

(** C2 (as stated) fails: on 2025-11-02 an enabled campaign that starts on
    2030-01-01, with no metric rows yet, gets [activeDays = -1520]. *)
Lemma activeDays_below_one :
  Aggregated.activeDays (aggregateCampaign sampleClock scheduledCampaign (Ok []))
    = Some (-1520) /\
  ~ (exists days,
       Aggregated.activeDays (aggregateCampaign sampleClock scheduledCampaign (Ok []))
         = Some days /\ 1 <= days).
Proof.
  split; [vm_compute; reflexivity|].
  intros (days & H & Hle). vm_compute in H. injection H as <-. lia.
Qed.

(** ** C3: zero ratios *)

(** C3 (as amended).  When [totalImpressions] is zero (or below), [ctr] is
    the text [0%]; when [totalClicks] is zero (or below), [averageCpc] is
    the text [0.00]; both read back as zero. *)
Theorem zero_denominators (file : SourceFile) (clock : Clock)
    (campaign : Aggregated.t) :
  let report := formatCampaign file clock campaign in
  (Report.totalImpressions report <= 0 ->
   Report.ctr report = "0%" /\ readsAsZero (Report.ctr report) = true) /\
  (Report.totalClicks report <= 0 ->
   Report.averageCpc report = "0.00" /\ readsAsZero (Report.averageCpc report) = true).
Proof.
  cbv zeta. cbn [formatCampaign Report.totalImpressions Report.totalClicks
                 Report.ctr Report.averageCpc].
  unfold averageCpc. split; intros H.
  - destruct (0 <? Aggregated.totalImpressions campaign) eqn:E;
      [apply Z.ltb_lt in E; lia|].
    split; reflexivity.
  - destruct (0 <? Aggregated.totalClicks campaign) eqn:E;
      [apply Z.ltb_lt in E; lia|].
    split; reflexivity.
Qed.

Lemma zero_denominators_witness :
  (Report.ctr (formatCampaign ConsoleReport sampleClock (fallbackRecord enabledCampaign))
     = "0%" /\
   readsAsZero
     (Report.ctr (formatCampaign ConsoleReport sampleClock (fallbackRecord enabledCampaign)))
     = true) /\
  (Report.averageCpc (formatCampaign ConsoleReport sampleClock (fallbackRecord enabledCampaign))
     = "0.00" /\
   readsAsZero
     (Report.averageCpc
        (formatCampaign ConsoleReport sampleClock (fallbackRecord enabledCampaign)))
     = true).
Proof.
  destruct (zero_denominators ConsoleReport sampleClock (fallbackRecord enabledCampaign))
    as [Hctr Hcpc].
  split; [apply Hctr|apply Hcpc]; simpl; lia.
Defined.

(** C3 (as stated) fails: 200 impressions without a click give a [ctr] of
    [0.00%], and 5 clicks that cost nothing give an [averageCpc] of
    [0.00]; both read back as zero although the denominator is not. *)
Lemma zero_ratio_with_nonzero_denominator :
  ~ (readsAsZero (Report.ctr (formatCampaign ConsoleReport sampleClock shownNotClicked))
       = true
     <-> Report.totalImpressions (formatCampaign ConsoleReport sampleClock shownNotClicked)
           = 0) /\
  ~ (readsAsZero (Report.averageCpc (formatCampaign ConsoleReport sampleClock clickedForFree))
       = true
     <-> Report.totalClicks (formatCampaign ConsoleReport sampleClock clickedForFree)
           = 0).
Proof.
  split; intros [H _]; specialize (H ltac:(vm_compute; reflexivity));
    vm_compute in H; discriminate H.
Qed.

(** ** C4: the paused flag *)

(** C4.  [isPaused] is set for the status number 3 and for the string
    ["3"].  It is not set for the string ["PAUSED"], which [formatStatus]
    nevertheless labels [Paused], without the duration. *)
Theorem isPaused_of_status (campaignRow : CampaignRow.t) :
  (CampaignRow.status campaignRow = num 3 ->
   CampaignInfo.isPaused (campaignInfoOf campaignRow) = true) /\
  (CampaignRow.status campaignRow = JsStr "3" ->
   CampaignInfo.isPaused (campaignInfoOf campaignRow) = true) /\
  (CampaignRow.status campaignRow = JsStr "PAUSED" ->
   CampaignInfo.isPaused (campaignInfoOf campaignRow) = false /\
   forall activeDays,
     formatStatus (CampaignInfo.status (campaignInfoOf campaignRow))
       (CampaignInfo.isPaused (campaignInfoOf campaignRow)) activeDays
     = JsStr "Paused").
Proof.
  unfold campaignInfoOf. cbn [CampaignInfo.isPaused CampaignInfo.status].
  split; [|split]; intros Hstatus; rewrite Hstatus.
  - reflexivity.
  - reflexivity.
  - split; [reflexivity|]. intros activeDays. reflexivity.
Qed.

Lemma isPaused_of_status_witness :
  CampaignInfo.isPaused
    (campaignInfoOf (campaignRow 14 "2024-01-01" None (JsStr "PAUSED"))) = false /\
  forall activeDays,
    formatStatus
      (CampaignInfo.status (campaignInfoOf (campaignRow 14 "2024-01-01" None (JsStr "PAUSED"))))
      (CampaignInfo.isPaused (campaignInfoOf (campaignRow 14 "2024-01-01" None (JsStr "PAUSED"))))
      activeDays
    = JsStr "Paused".
Proof.
  apply (isPaused_of_status (campaignRow 14 "2024-01-01" None (JsStr "PAUSED"))).
  reflexivity.
Defined.

(** ** C5: the status label *)

(** C5 (as amended).  A status that is a number, or converts to one, is
    looked up in the numeric table under the integer it starts with, and
    shown as [Unknown (<raw value>)] when unmapped; any other status is
    looked up in the table of names and passed on unchanged when unmapped.
    When [isPaused], the text [ (Ran for <activeDays> days)] is appended. *)
Theorem formatStatus_label (status : JsValue) (isPaused : bool)
    (activeDays : option Z) :
  formatStatus status isPaused activeDays
  = if isPaused
    then JsStr (ToString (statusLabel status) ++ ranForSuffix activeDays)
    else statusLabel status.
Proof.
  assert (formatStatus status false activeDays = statusLabel status) as Hlabel.
  { unfold formatStatus, statusLabel, isNumericCode.
    destruct (typeofIsNumber status || negb (isNaN status)).
    - destruct (parseInt status) as [code|]; [|reflexivity].
      cbn [lookup numericStatusTable].
      repeat (destruct (code =? _); [reflexivity|]). reflexivity.
    - destruct status as [| |x|s]; try reflexivity.
      cbn [lookup namedStatusTable].
      repeat (destruct (String.eqb s _); [reflexivity|]). reflexivity. }
  destruct isPaused; [|exact Hlabel].
  rewrite <- Hlabel. reflexivity.
Qed.

(** C5 (as stated) fails: a name outside the table is not shown as
    [Unknown (...)]. *)
Lemma unmapped_name_is_passed_on :
  formatStatus (JsStr "SUSPENDED") false (Some 1) = JsStr "SUSPENDED" /\
  formatStatus (JsStr "SUSPENDED") false (Some 1)
    <> JsStr ("Unknown (" ++ ToString (JsStr "SUSPENDED") ++ ")").
Proof.
  split; [reflexivity|]. intros H. vm_compute in H. discriminate H.
Qed.

(** ** C6: the end-date label *)

(** C6.  The end-date label is [Paused on <lastActiveDate>] when paused;
    otherwise [No end date] when the end date is absent, or when its year
    exceeds the current year plus 10; otherwise the end date itself.  The
    label these cases determine is the one [formatEndDate] returns. *)
Theorem formatEndDate_label (endDate : option string) (isPaused : bool)
    (lastActiveDate : string) (clock : Clock) (label : string) :
  EndDateLabel endDate isPaused lastActiveDate (currentYear clock) label
  <-> label = formatEndDate endDate isPaused lastActiveDate clock.
Proof.
  unfold formatEndDate. split.
  - intros H. destruct H as [Hp | Hp Habsent | date year Hp Hd Hne Hy Hfar
                            | date Hp Hd Hne Hnear]; rewrite Hp.
    + reflexivity.
    + destruct Habsent as [-> | ->]; reflexivity.
    + rewrite Hd. destruct date as [|c date]; [congruence|].
      unfold endYearOf in Hy. rewrite Hy.
      apply Z.ltb_lt in Hfar. rewrite Hfar. reflexivity.
    + rewrite Hd. destruct date as [|c date]; [congruence|].
      unfold endYearOf in Hnear.
      destruct (parseIntString (beforeFirst "-" (String c date))) as [year|];
        [|reflexivity].
      specialize (Hnear year eq_refl).
      destruct (currentYear clock + 10 <? year) eqn:E; [|reflexivity].
      apply Z.ltb_lt in E. lia.
  - intros ->. destruct isPaused.
    + apply label_paused. reflexivity.
    + destruct endDate as [date|]; [|apply label_absent; auto].
      destruct date as [|c date]; [apply label_absent; auto|].
      destruct (parseIntString (beforeFirst "-" (String c date))) as [year|] eqn:Ey.
      * destruct (currentYear clock + 10 <? year) eqn:E.
        -- apply Z.ltb_lt in E.
           apply label_far_future with (date := String c date) (year := year);
             auto; discriminate.
        -- apply Z.ltb_ge in E. apply label_literal; auto; [discriminate|].
           unfold endYearOf. rewrite Ey. intros y [= <-]. exact E.
      * apply label_literal; auto; [discriminate|].
        unfold endYearOf. rewrite Ey. discriminate.
Qed.

(** The far-future scenario: an active campaign ending 2037-12-30, seen
    from 2025, has no end date. *)
Lemma formatEndDate_label_witness :
  "No end date" = formatEndDate (Some "2037-12-30") false "2024-01-10" sampleClock.
Proof.
  apply (formatEndDate_label (Some "2037-12-30") false "2024-01-10" sampleClock).
  apply label_far_future with (date := "2037-12-30") (year := 2037).
  - reflexivity.
  - reflexivity.
  - discriminate.
  - reflexivity.
  - simpl. lia.
Defined.

(** ** C7: a failing metrics query *)

Lemma mapSet_fresh {V : Type} (key : Z) (value : V) (m : list (Z * V)) :
  ~ In key (map fst m) -> mapSet key value m = (m ++ [(key, value)])%list.
Proof.
  induction m as [|[k v] m IH]; intros Hfresh; [reflexivity|].
  cbn [mapSet]. cbn [map fst In] in Hfresh.
  destruct (k =? key) eqn:E.
  - apply Z.eqb_eq in E. tauto.
  - cbn [app]. f_equal. apply IH. tauto.
Qed.

(** With distinct identifiers the map holds one record per campaign, in
    catalogue order. *)
Lemma collect_distinct (customer : Customer) (clock : Clock)
    (campaignInfoResult : list CampaignRow.t) :
  NoDup (map CampaignRow.id campaignInfoResult) ->
  mapValues (collectCampaigns customer clock campaignInfoResult)
  = map (processCampaign customer clock) campaignInfoResult.
Proof.
  unfold collectCampaigns.
  set (turn := fun campaignMap campaignRow =>
                 let campaignId := CampaignRow.id campaignRow in
                 mapSet campaignId (processCampaign customer clock campaignRow)
                   campaignMap).
  assert (forall rows acc,
            NoDup (map fst acc ++ map CampaignRow.id rows)%list ->
            fold_left turn rows acc
            = (acc ++ map (fun row => (CampaignRow.id row,
                                       processCampaign customer clock row)) rows)%list)
    as Hfold.
  { induction rows as [|row rows IH]; intros acc Hnodup.
    - cbn [fold_left map]. rewrite app_nil_r. reflexivity.
    - cbn [fold_left map] in *.
      assert (turn acc row
              = (acc ++ [(CampaignRow.id row, processCampaign customer clock row)])%list)
        as Hturn.
      { unfold turn. cbv zeta. apply mapSet_fresh.
        apply NoDup_remove_2 in Hnodup. rewrite in_app_iff in Hnodup. tauto. }
      rewrite Hturn, IH.
      + rewrite <- app_assoc. reflexivity.
      + rewrite map_app. cbn [map fst]. rewrite <- app_assoc. cbn [app].
        apply NoDup_remove_1 in Hnodup as Hrest.
        apply NoDup_remove_2 in Hnodup as Hfresh.
        apply Permutation_NoDup with (l := (CampaignRow.id row
                                            :: map fst acc ++ map CampaignRow.id rows)%list).
        * apply Permutation_middle.
        * constructor; assumption. }
  intros Hnodup. rewrite Hfold by exact Hnodup.
  cbn [app]. unfold mapValues. rewrite map_map. reflexivity.
Qed.



(** ** Signs of rounded results *)

Lemma shr_1_nonneg (mrs : shr_record) : 0 <= shr_m mrs -> 0 <= shr_m (shr_1 mrs).
Proof.
  destruct mrs as [m r s]. cbn [shr_m].
  destruct m as [|p|p]; [| |lia]; intros _.
  - cbn. lia.
  - destruct p; cbn; lia.
Qed.

Lemma iter_shr_1_nonneg (p : positive) : forall mrs,
  0 <= shr_m mrs -> 0 <= shr_m (iter_pos shr_1 p mrs).
Proof.
  induction p as [p IH|p IH|]; intros mrs H; cbn [iter_pos].
  - apply IH, IH, shr_1_nonneg, H.
  - apply IH, IH, H.
  - apply shr_1_nonneg, H.
Qed.

Lemma shr_fexp_nonneg (m e : Z) (l : location) :
  0 <= m -> 0 <= shr_m (fst (shr_fexp 53 1024 m e l)).
Proof.
  intros Hm. unfold shr_fexp, shr.
  assert (0 <= shr_m (shr_record_of_loc m l)) as H0.
  { destruct l as [|[]]; exact Hm. }
  destruct (fexp 53 1024 (Zdigits2 m + e) - e) as [|p|p]; cbn [fst]; try exact H0.
  apply iter_shr_1_nonneg, H0.
Qed.

Lemma round_nearest_even_nonneg (m : Z) (l : location) :
  0 <= m -> 0 <= round_nearest_even m l.
Proof.
  intros Hm. unfold round_nearest_even.
  destruct l as [|[]]; try destruct (Z.even m); lia.
Qed.

Lemma binary_round_aux_sign (sx : bool) (mx ex : Z) (lx : location) :
  0 <= mx -> hasSign sx (binary_round_aux 53 1024 sx mx ex lx).
Proof.
  intros Hm. unfold binary_round_aux.
  pose proof (shr_fexp_nonneg mx ex lx Hm) as H1.
  destruct (shr_fexp 53 1024 mx ex lx) as [mrs' e']. cbn [fst] in H1.
  pose proof (shr_fexp_nonneg
                (round_nearest_even (shr_m mrs') (loc_of_shr_record mrs')) e' loc_Exact
                (round_nearest_even_nonneg _ _ H1)) as H2.
  destruct (shr_fexp 53 1024 _ e' loc_Exact) as [mrs'' e'']. cbn [fst] in H2.
  destruct (shr_m mrs'') as [|m|m]; [reflexivity| |lia].
  destruct (e'' <=? 1024 - 53); reflexivity.
Qed.

Lemma binary_round_sign (sx : bool) (m : positive) (e : Z) :
  hasSign sx (binary_round 53 1024 sx m e).
Proof.
  unfold binary_round.
  destruct (shl_align m e _) as [mz ez].
  apply binary_round_aux_sign. lia.
Qed.

Lemma nonNegative_hasSign (x : number) :
  nonNegative x = true <-> (exists s, x = S754_zero s) \/ hasSign false x.
Proof.
  unfold nonNegative, SFleb, zero.
  destruct x as [s|s| |s m e]; cbn; try destruct s; split;
    intros H; try discriminate; try reflexivity; eauto;
    destruct H as [[s H]|H]; congruence || contradiction.
Qed.

(** A sum of two numbers that are at least zero is at least zero; in
    particular it is not [NaN]. *)
Lemma fadd_nonNegative (x y : number) :
  nonNegative x = true -> nonNegative y = true -> nonNegative (fadd x y) = true.
Proof.
  intros Hx Hy. unfold fadd.
  destruct x as [sx|sx| |sx mx ex]; try discriminate Hx;
  destruct y as [sy|sy| |sy my ey]; try discriminate Hy;
  try (destruct sx; try discriminate Hx); try (destruct sy; try discriminate Hy);
  try reflexivity.
  cbn [SFadd cond_Zopp].
  match goal with
  | |- nonNegative (binary_normalize _ _ (Zpos ?a + Zpos ?b) ?e _) = true =>
      change (Zpos a + Zpos b) with (Zpos (a + b)); cbn [binary_normalize];
      apply nonNegative_hasSign; right; apply binary_round_sign
  end.
Qed.

Lemma nonNegative_not_nan (x : number) : nonNegative x = true -> isNaNNumber x = false.
Proof. destruct x; try reflexivity. discriminate. Qed.

Lemma fold_fadd_nonNegative (column : list number) : forall acc,
  nonNegative acc = true ->
  Forall (fun x => nonNegative x = true) column ->
  nonNegative (fold_left fadd column acc) = true.
Proof.
  induction column as [|x column IH]; intros acc Hacc Hall; [exact Hacc|].
  inversion Hall; subst. cbn [fold_left].
  apply IH; [apply fadd_nonNegative|]; assumption.
Qed.

Lemma sumInt_nonneg (column : list Z) :
  Forall (fun z => 0 <= z) column -> 0 <= sumInt column.
Proof.
  induction 1; simpl; lia.
Qed.

Lemma orZero_not_nan (x : number) : isNaNNumber (orZero x) = false.
Proof. destruct x; reflexivity. Qed.

Lemma orZero_nonNegative (x : number) :
  (isNaNNumber x = false -> nonNegative x = true) -> nonNegative (orZero x) = true.
Proof.
  destruct x; intros H; try reflexivity; apply H; reflexivity.
Qed.

Lemma orZeroInt_nonneg (z : option Z) :
  (forall v, z = Some v -> 0 <= v) -> 0 <= orZeroInt z.
Proof.
  destruct z as [v|]; intros H; simpl; [apply H; reflexivity|lia].
Qed.

(** ** C8: defensive parsing *)


Lemma fieldsNonNegative_damagedRows : Forall fieldsNonNegative damagedRows.
Proof.
  apply Forall_cons; [|apply Forall_cons; [|apply Forall_nil]];
    (split; [|split; [|split; [|split]]]);
    first [ intros z H; vm_compute in H;
            first [discriminate H | injection H as <-; lia]
          | intros H; vm_compute in H |- *;
            first [discriminate H | reflexivity] ].
Defined.



(** ** C9: two decimal places *)

Lemma digitChar_isDecimalDigit (d : Z) :
  0 <= d < 10 -> isDecimalDigit (digitChar d) = true.
Proof.
  intros H.
  assert (d = 0 \/ d = 1 \/ d = 2 \/ d = 3 \/ d = 4 \/ d = 5 \/ d = 6 \/ d = 7
          \/ d = 8 \/ d = 9) as Hd by lia.
  repeat (destruct Hd as [-> | Hd]; [reflexivity|]). subst d. reflexivity.
Qed.

Lemma digitsFuel_digits (fuel : nat) : forall n acc,
  0 <= n -> allDecimalDigits acc = true ->
  allDecimalDigits (digitsFuel fuel n acc) = true.
Proof.
  induction fuel as [|fuel IH]; intros n acc Hn Hacc; [exact Hacc|].
  cbn [digitsFuel].
  assert (allDecimalDigits (String (digitChar (n mod 10)) acc) = true) as Hnext.
  { cbn [allDecimalDigits]. rewrite digitChar_isDecimalDigit, Hacc; [reflexivity|].
    apply Z.mod_pos_bound. lia. }
  destruct (n <? 10); [exact Hnext|].
  apply IH; [|exact Hnext]. apply Z.div_pos; lia.
Qed.

Lemma digitsFuel_grows (fuel : nat) : forall n acc,
  acc <> EmptyString -> digitsFuel fuel n acc <> EmptyString.
Proof.
  induction fuel as [|fuel IH]; intros n acc Hacc; [exact Hacc|].
  cbn [digitsFuel]. destruct (n <? 10); [discriminate|].
  apply IH. discriminate.
Qed.

Lemma decimalDigits_digits (n : Z) :
  0 <= n -> allDecimalDigits (decimalDigits n) = true.
Proof.
  intros Hn. apply digitsFuel_digits; [exact Hn|reflexivity].
Qed.

Lemma decimalDigits_nonempty (n : Z) : decimalDigits n <> EmptyString.
Proof.
  unfold decimalDigits. cbn [digitsFuel].
  destruct (n <? 10); [discriminate|]. apply digitsFuel_grows. discriminate.
Qed.

Lemma span_digits_then (ds : string) (c : ascii) (rest : string) :
  allDecimalDigits ds = true -> isDecimalDigit c = false ->
  span isDecimalDigit (ds ++ String c rest) = (ds, String c rest).
Proof.
  intros Hds Hc. induction ds as [|d ds IH].
  - cbn. rewrite Hc. reflexivity.
  - cbn [allDecimalDigits] in Hds. apply andb_true_iff in Hds as [Hd Hds].
    cbn [append span]. rewrite Hd, (IH Hds). reflexivity.
Qed.

Lemma unsignedTwoDecimals_cut (n : Z) (a b : ascii) :
  0 <= n -> isDecimalDigit a = true -> isDecimalDigit b = true ->
  unsignedTwoDecimals
    (decimalDigits n ++ String "." (String a (String b EmptyString))) = true.
Proof.
  intros Hn Ha Hb. unfold unsignedTwoDecimals.
  rewrite span_digits_then; [|apply decimalDigits_digits, Hn|reflexivity].
  pose proof (decimalDigits_nonempty n) as Hne.
  destruct (decimalDigits n); [congruence|].
  rewrite Ha, Hb. reflexivity.
Qed.

(** In fixed notation [toFixed2] writes exactly two decimal places. *)
Lemma toFixed2_two_decimals (x : number) :
  inFixedRange x = true -> hasTwoDecimals (toFixed2 x) = true.
Proof.
  destruct x as [s|s| |s m e]; try discriminate; [reflexivity|].
  cbn [inFixedRange toFixed2].
  destruct (cmpDecBin 1 21 (Z.pos m) e); try discriminate. intros _.
  set (d := 2 ^ Z.max (- e) 0).
  set (n := (Z.pos m * 2 ^ Z.max e 0 * 200 + d) / (2 * d)).
  assert (0 < d) as Hd by (apply Z.pow_pos_nonneg; lia).
  assert (0 <= n) as Hn.
  { apply Z.div_pos; [|lia].
    assert (0 <= 2 ^ Z.max e 0) by (apply Z.pow_nonneg; lia). nia. }
  assert (unsignedTwoDecimals
            (decimalDigits (n / 100)
             ++ String "." (String (digitChar (n / 10 mod 10))
                              (String (digitChar (n mod 10)) EmptyString))) = true)
    as Hcut.
  { apply unsignedTwoDecimals_cut.
    - apply Z.div_pos; lia.
    - apply digitChar_isDecimalDigit, Z.mod_pos_bound. lia.
    - apply digitChar_isDecimalDigit, Z.mod_pos_bound. lia. }
  unfold hasTwoDecimals. destruct s.
  - change ("-" ++ ?t) with (String "-" t). cbv iota beta.
    rewrite Hcut. apply orb_true_r.
  - change ("" ++ ?t) with t. rewrite Hcut. reflexivity.
Qed.

(** C9 (as amended).  [totalCost], [dailyAvgCost], [costPerDay],
    [totalConversions], [totalConversionsValue] and [averageCpc] are
    written with exactly two decimal places whenever their value is
    finite and below 10^21 in magnitude; [ctr] is such a numeral followed
    by [%] when [totalImpressions] is above zero, and the text [0%]
    otherwise. *)
Theorem rendering_two_decimals (file : SourceFile) (clock : Clock)
    (campaign : Aggregated.t) :
  let report := formatCampaign file clock campaign in
  (inFixedRange (costInCurrency campaign) = true ->
   hasTwoDecimals (Report.totalCost report) = true) /\
  (inFixedRange (dailyAvgCost campaign) = true ->
   hasTwoDecimals (Report.dailyAvgCost report) = true /\
   hasTwoDecimals (Report.costPerDay report) = true) /\
  (inFixedRange (Aggregated.totalConversions campaign) = true ->
   hasTwoDecimals (Report.totalConversions report) = true) /\
  (inFixedRange (Aggregated.totalConversionsValue campaign) = true ->
   hasTwoDecimals (Report.totalConversionsValue report) = true) /\
  (inFixedRange (averageCpc campaign) = true ->
   hasTwoDecimals (Report.averageCpc report) = true) /\
  (0 < Aggregated.totalImpressions campaign ->
   inFixedRange (ctrValue campaign) = true ->
   exists numeral,
     Report.ctr report = numeral ++ "%" /\ hasTwoDecimals numeral = true) /\
  (Aggregated.totalImpressions campaign <= 0 -> Report.ctr report = "0%").
Proof.
  cbv zeta.
  cbn [formatCampaign Report.totalCost Report.dailyAvgCost Report.costPerDay
       Report.totalConversions Report.totalConversionsValue Report.averageCpc
       Report.ctr].
  split; [intros H; apply toFixed2_two_decimals, H|].
  split; [intros H; split; apply toFixed2_two_decimals, H|].
  split; [intros H; apply toFixed2_two_decimals, H|].
  split; [intros H; apply toFixed2_two_decimals, H|].
  split; [intros H; apply toFixed2_two_decimals, H|].
  split.
  - intros Hpos Hrange. apply Z.ltb_lt in Hpos. rewrite Hpos.
    eexists. split; [reflexivity|]. apply toFixed2_two_decimals, Hrange.
  - intros Hle. destruct (0 <? Aggregated.totalImpressions campaign) eqn:E;
      [apply Z.ltb_lt in E; lia|reflexivity].
Qed.

Lemma rendering_two_decimals_witness :
  hasTwoDecimals
    (Report.totalCost
       (formatCampaign ConsoleReport sampleClock
          (aggregateCampaign sampleClock pausedCampaign (Ok tenDays)))) = true /\
  exists numeral,
    Report.ctr
      (formatCampaign ConsoleReport sampleClock
         (aggregateCampaign sampleClock pausedCampaign (Ok tenDays)))
    = numeral ++ "%" /\ hasTwoDecimals numeral = true.
Proof.
  destruct (rendering_two_decimals ConsoleReport sampleClock
              (aggregateCampaign sampleClock pausedCampaign (Ok tenDays)))
    as (Hcost & _ & _ & _ & _ & Hctr & _).
  split.
  - apply Hcost. vm_compute. reflexivity.
  - apply Hctr; vm_compute; reflexivity.
Defined.

(** C9 (as stated) fails: the zero-metrics fallback has the [ctr] text
    [0%], whose numeral has no decimal places; and a cost of 10^27 micros
    is written in exponent notation. *)
Lemma ctr_without_decimals :
  Report.ctr (formatCampaign ConsoleReport sampleClock (fallbackRecord enabledCampaign))
    = "0%" /\
  (forall numeral,
     Report.ctr (formatCampaign ConsoleReport sampleClock (fallbackRecord enabledCampaign))
       = numeral ++ "%" ->
     hasTwoDecimals numeral = false) /\
  Report.totalCost (formatCampaign ConsoleReport sampleClock hugeSpend) = "1e+21" /\
  hasTwoDecimals (Report.totalCost (formatCampaign ConsoleReport sampleClock hugeSpend))
    = false.
Proof.
  split; [reflexivity|]. split; [|split; vm_compute; reflexivity].
  change (Report.ctr _) with "0%".
  intros numeral H.
  destruct numeral as [|c [|c' rest]]; cbn in H.
  - discriminate H.
  - injection H as <-. reflexivity.
  - injection H as _ _ H. destruct rest; discriminate H.
Qed.

(** ** C10: cost per day *)

(** The records of the output are renderings of the records of
    [campaignMap], each of which is the record stored for some campaign of
    the catalogue. *)
Lemma collected_are_processed (customer : Customer) (clock : Clock)
    (campaignInfoResult : list CampaignRow.t) (campaign : Aggregated.t) :
  In campaign (mapValues (collectCampaigns customer clock campaignInfoResult)) ->
  exists campaignRow,
    In campaignRow campaignInfoResult /\
    campaign = processCampaign customer clock campaignRow.
Proof.
  unfold collectCampaigns, mapValues.
  set (turn := fun campaignMap campaignRow =>
                 let campaignId := CampaignRow.id campaignRow in
                 mapSet campaignId (processCampaign customer clock campaignRow)
                   campaignMap).
  set (known := fun rows (entry : Z * Aggregated.t) =>
                  exists row, In row rows /\ snd entry = processCampaign customer clock row).
  assert (forall V key (value : V) m entry,
            In entry (mapSet key value m) -> entry = (key, value) \/ In entry m)
    as Hset.
  { intros V key value m entry. induction m as [|[k v] m IH]; cbn [mapSet].
    - intros [<-|[]]. left. reflexivity.
    - destruct (k =? key).
      + intros [<-|Hin]; [left; reflexivity|right; right; exact Hin].
      + intros [<-|Hin]; [right; left; reflexivity|].
        destruct (IH Hin) as [->|Hm]; [left; reflexivity|right; right; exact Hm]. }
  assert (forall rows done acc,
            Forall (known done) acc ->
            Forall (known (done ++ rows)%list) (fold_left turn rows acc)) as Hfold.
  { induction rows as [|row rows IH]; intros done acc Hacc.
    - rewrite app_nil_r. exact Hacc.
    - cbn [fold_left].
      replace (done ++ row :: rows)%list with ((done ++ [row]) ++ rows)%list
        by (rewrite <- app_assoc; reflexivity).
      apply IH. rewrite Forall_forall in *. intros entry Hin.
      apply Hset in Hin. destruct Hin as [->|Hin].
      + exists row. split; [apply in_or_app; right; left; reflexivity|reflexivity].
      + destruct (Hacc entry Hin) as (r & Hr & Heq).
        exists r. split; [apply in_or_app; left; exact Hr|exact Heq]. }
  intros Hin. apply in_map_iff in Hin. destruct Hin as (entry & <- & Hin).
  specialize (Hfold campaignInfoResult [] [] (Forall_nil _)).
  rewrite Forall_forall in Hfold. exact (Hfold entry Hin).
Qed.



(* ================================================================== *)
(** * Further properties of the pipeline, its callers and consumers *)
(* ================================================================== *)

(** ** The catalogue and [campaignMap] *)



Lemma mapSet_keys {V : Type} (key : Z) (value : V) (m : list (Z * V)) :
  map fst (mapSet key value m)
  = if existsb (Z.eqb key) (map fst m) then map fst m
    else (map fst m ++ [key])%list.
Proof.
  induction m as [|[k v] m IH]; [reflexivity|].
  cbn [mapSet map fst existsb]. rewrite (Z.eqb_sym key k).
  destruct (k =? key) eqn:E.
  - apply Z.eqb_eq in E. subst k. reflexivity.
  - cbn [map fst orb]. rewrite IH.
    destruct (existsb (Z.eqb key) (map fst m)); reflexivity.
Qed.

Lemma mapSet_lookup {V : Type} (key : Z) (value : V) (m : list (Z * V)) (k : Z) :
  lookup Z.eqb (mapSet key value m) k
  = if k =? key then Some value else lookup Z.eqb m k.
Proof.
  induction m as [|[k0 v0] m IH].
  - cbn [mapSet lookup]. destruct (k =? key); reflexivity.
  - cbn [mapSet lookup]. destruct (k0 =? key) eqn:E0.
    + apply Z.eqb_eq in E0. subst k0. cbn [lookup].
      destruct (k =? key); reflexivity.
    + cbn [lookup]. rewrite IH.
      destruct (k =? k0) eqn:E1; [|reflexivity].
      apply Z.eqb_eq in E1. subst k0.
      rewrite E0. reflexivity.
Qed.

Lemma firstOccurrences_seen (ids : list Z) : forall seen seen',
  (forall id, existsb (Z.eqb id) seen = existsb (Z.eqb id) seen') ->
  firstOccurrences seen ids = firstOccurrences seen' ids.
Proof.
  induction ids as [|id ids IH]; intros seen seen' Hseen; [reflexivity|].
  cbn [firstOccurrences]. rewrite (Hseen id).
  destruct (existsb (Z.eqb id) seen'); [apply IH, Hseen|].
  f_equal. apply IH. intros x. cbn [existsb]. rewrite Hseen. reflexivity.
Qed.

Lemma collect_keys (customer : Customer) (clock : Clock)
    (campaignInfoResult : list CampaignRow.t) :
  map fst (collectCampaigns customer clock campaignInfoResult)
  = firstOccurrences [] (map CampaignRow.id campaignInfoResult).
Proof.
  unfold collectCampaigns.
  set (turn := fun campaignMap campaignRow =>
                 let campaignId := CampaignRow.id campaignRow in
                 mapSet campaignId (processCampaign customer clock campaignRow)
                   campaignMap).
  assert (forall rows acc,
            map fst (fold_left turn rows acc)
            = (map fst acc
               ++ firstOccurrences (map fst acc) (map CampaignRow.id rows))%list)
    as Hfold.
  { induction rows as [|row rows IH]; intros acc.
    - cbn. rewrite app_nil_r. reflexivity.
    - cbn [fold_left map firstOccurrences]. rewrite IH.
      assert (map fst (turn acc row)
              = if existsb (Z.eqb (CampaignRow.id row)) (map fst acc)
                then map fst acc
                else (map fst acc ++ [CampaignRow.id row])%list) as Hkeys
        by (unfold turn; cbv zeta; apply mapSet_keys).
      rewrite Hkeys.
      destruct (existsb (Z.eqb (CampaignRow.id row)) (map fst acc)) eqn:E;
        [reflexivity|].
      rewrite <- app_assoc. cbn [app]. do 2 f_equal.
      apply firstOccurrences_seen. intros id.
      rewrite existsb_app. cbn [existsb]. rewrite orb_false_r. apply orb_comm. }
  rewrite Hfold. reflexivity.
Qed.

Lemma firstOccurrences_new (ids : list Z) : forall seen,
  NoDup (firstOccurrences seen ids) /\
  (forall id, In id (firstOccurrences seen ids)
              <-> In id ids /\ existsb (Z.eqb id) seen = false) /\
  (List.length (firstOccurrences seen ids) <= List.length ids)%nat.
Proof.
  induction ids as [|x ids IH]; intros seen.
  - cbn. repeat split; try constructor; tauto.
  - cbn [firstOccurrences].
    destruct (existsb (Z.eqb x) seen) eqn:E.
    + destruct (IH seen) as (Hnd & Hin & Hlen). split; [exact Hnd|]. split.
      * intros id. split.
        -- intros H. apply Hin in H. cbn [In]. tauto.
        -- intros [[<-|H] Hs]; [congruence|]. apply Hin. tauto.
      * cbn [List.length]. lia.
    + destruct (IH (x :: seen)) as (Hnd & Hin & Hlen). split; [|split].
      * constructor; [|exact Hnd]. intros H. apply Hin in H.
        cbn [existsb] in H. rewrite Z.eqb_refl in H. destruct H as [_ H].
        discriminate H.
      * intros id. cbn [In]. split.
        -- intros [<-|H]; [tauto|]. apply Hin in H. cbn [existsb] in H.
           destruct H as [H1 H2]. apply orb_false_iff in H2. tauto.
        -- intros [[<-|H] Hs]; [left; reflexivity|].
           destruct (Z.eqb_spec id x) as [->|Hne]; [left; reflexivity|].
           right. apply Hin. split; [exact H|]. cbn [existsb].
           apply orb_false_iff. split; [|exact Hs]. apply Z.eqb_neq, Hne.
      * cbn [List.length]. lia.
Qed.

Lemma mapSet_In {V : Type} (key : Z) (value : V) (m : list (Z * V)) (entry : Z * V) :
  In entry (mapSet key value m) -> entry = (key, value) \/ In entry m.
Proof.
  induction m as [|[k v] m IH]; cbn [mapSet].
  - intros [<-|[]]. left. reflexivity.
  - destruct (k =? key).
    + intros [<-|Hin]; [left; reflexivity|right; right; exact Hin].
    + intros [<-|Hin]; [right; left; reflexivity|].
      destruct (IH Hin) as [->|Hm]; [left; reflexivity|right; right; exact Hm].
Qed.

Lemma collect_keyed (customer : Customer) (clock : Clock)
    (campaignInfoResult : list CampaignRow.t) :
  Forall (fun entry => CampaignInfo.id (Aggregated.info (snd entry)) = fst entry)
    (collectCampaigns customer clock campaignInfoResult).
Proof.
  unfold collectCampaigns.
  set (turn := fun campaignMap campaignRow =>
                 let campaignId := CampaignRow.id campaignRow in
                 mapSet campaignId (processCampaign customer clock campaignRow)
                   campaignMap).
  set (keyed := fun entry : Z * Aggregated.t =>
                  CampaignInfo.id (Aggregated.info (snd entry)) = fst entry).
  assert (forall rows acc, Forall keyed acc -> Forall keyed (fold_left turn rows acc))
    as Hfold.
  { induction rows as [|row rows IH]; intros acc Hacc; [exact Hacc|].
    cbn [fold_left]. apply IH. rewrite Forall_forall in *. intros entry Hin.
    apply mapSet_In in Hin. destruct Hin as [->|Hin]; [|apply Hacc, Hin].
    unfold keyed, processCampaign. cbn [snd fst].
    destruct (metricsQuery customer _ _); reflexivity. }
  apply Hfold. constructor.
Qed.

(** X2.  Whatever the catalogue holds, the report has one record per
    distinct campaign identifier, in the order in which the identifiers
    first appear, so it is never longer than the catalogue. *)
Theorem one_record_per_identifier (file : SourceFile) (customer : Customer)
    (clock : Clock) (campaignInfoResult : list CampaignRow.t) :
  campaignInfoQuery customer = Ok campaignInfoResult ->
  exists reports,
    getCampaignData file customer clock = Ok reports /\
    map Report.campaignId reports
    = map (fun id => match file with
                     | ConsoleReport => JsNum (ofZ id)
                     | FirestoreSync => JsStr (numberToString (ofZ id))
                     end)
        (firstOccurrences [] (map CampaignRow.id campaignInfoResult)) /\
    NoDup (firstOccurrences [] (map CampaignRow.id campaignInfoResult)) /\
    (forall id, In id (firstOccurrences [] (map CampaignRow.id campaignInfoResult))
                <-> In id (map CampaignRow.id campaignInfoResult)) /\
    (List.length reports <= List.length campaignInfoResult)%nat.
Proof.
  intros Hquery. unfold getCampaignData. rewrite Hquery. cbv zeta.
  eexists. split; [reflexivity|].
  destruct (firstOccurrences_new (map CampaignRow.id campaignInfoResult) [])
    as (Hnodup & Hin & Hlen).
  split; [|split; [exact Hnodup|split]].
  - rewrite <- (collect_keys customer clock). unfold mapValues. rewrite !map_map.
    apply map_ext_in. intros entry Hentry.
    pose proof (collect_keyed customer clock campaignInfoResult) as Hkeyed.
    rewrite Forall_forall in Hkeyed. specialize (Hkeyed entry Hentry).
    cbn [formatCampaign Report.campaignId]. rewrite Hkeyed. reflexivity.
  - intros id. rewrite Hin. cbn [existsb]. tauto.
  - unfold mapValues. rewrite !length_map.
    rewrite <- (length_map fst), (collect_keys customer clock).
    rewrite length_map in Hlen. exact Hlen.
Qed.

Lemma one_record_per_identifier_witness :
  exists reports,
    getCampaignData FirestoreSync oneFailure sampleClock = Ok reports /\
    map Report.campaignId reports
    = map (fun id => JsStr (numberToString (ofZ id)))
        (firstOccurrences [] (map CampaignRow.id fiveCampaigns)).
Proof.
  destruct (one_record_per_identifier FirestoreSync oneFailure sampleClock fiveCampaigns)
    as (reports & Hok & Hids & _); [reflexivity|].
  exists reports. split; assumption.
Defined.

Lemma collect_lookup (customer : Customer) (clock : Clock)
    (campaignInfoResult : list CampaignRow.t) (id : Z) :
  lookup Z.eqb (collectCampaigns customer clock campaignInfoResult) id
  = fold_left
      (fun found row =>
         if id =? CampaignRow.id row
         then Some (processCampaign customer clock row) else found)
      campaignInfoResult None.
Proof.
  unfold collectCampaigns.
  set (turn := fun campaignMap campaignRow =>
                 let campaignId := CampaignRow.id campaignRow in
                 mapSet campaignId (processCampaign customer clock campaignRow)
                   campaignMap).
  change (@None Aggregated.t) with (lookup Z.eqb (@nil (Z * Aggregated.t)) id).
  generalize (@nil (Z * Aggregated.t)).
  induction campaignInfoResult as [|row rows IH]; intros acc; [reflexivity|].
  cbn [fold_left]. rewrite IH. f_equal.
  unfold turn. cbv zeta. apply mapSet_lookup.
Qed.

Lemma lookup_In {V : Type} (m : list (Z * V)) (key : Z) (value : V) :
  lookup Z.eqb m key = Some value -> In value (map snd m).
Proof.
  induction m as [|[k v] m IH]; [discriminate|].
  cbn [lookup map snd In]. destruct (key =? k).
  - intros [= ->]. left. reflexivity.
  - intros H. right. apply IH, H.
Qed.

(** X3.  When several catalogue rows carry one identifier, the record of
    the last of them is the one reported. *)
Theorem last_row_of_an_identifier_wins (file : SourceFile) (customer : Customer)
    (clock : Clock) (before after : list CampaignRow.t) (row : CampaignRow.t) :
  campaignInfoQuery customer = Ok (before ++ row :: after)%list ->
  ~ In (CampaignRow.id row) (map CampaignRow.id after) ->
  lookup Z.eqb (collectCampaigns customer clock (before ++ row :: after)%list)
    (CampaignRow.id row)
  = Some (processCampaign customer clock row) /\
  exists reports,
    getCampaignData file customer clock = Ok reports /\
    In (formatCampaign file clock (processCampaign customer clock row)) reports.
Proof.
  intros Hquery Hlast.
  assert (lookup Z.eqb (collectCampaigns customer clock (before ++ row :: after)%list)
            (CampaignRow.id row)
          = Some (processCampaign customer clock row)) as Hlookup.
  { rewrite collect_lookup, fold_left_app. cbn [fold_left].
    rewrite Z.eqb_refl.
    assert (forall rows found,
              ~ In (CampaignRow.id row) (map CampaignRow.id rows) ->
              fold_left
                (fun found r =>
                   if CampaignRow.id row =? CampaignRow.id r
                   then Some (processCampaign customer clock r) else found)
                rows found = found) as Hrest.
    { induction rows as [|r rows IH]; intros found Hnot; [reflexivity|].
      cbn [fold_left map In] in *.
      destruct (Z.eqb_spec (CampaignRow.id row) (CampaignRow.id r)) as [E|E];
        [exfalso; apply Hnot; left; symmetry; exact E|].
      apply IH. intros Hin. apply Hnot. right. exact Hin. }
    apply Hrest, Hlast. }
  split; [exact Hlookup|].
  unfold getCampaignData. rewrite Hquery. cbv zeta.
  eexists. split; [reflexivity|].
  apply in_map. unfold mapValues. eapply lookup_In, Hlookup.
Qed.

Lemma last_row_of_an_identifier_wins_witness :
  exists reports,
    getCampaignData ConsoleReport
      {| campaignInfoQuery :=
           Ok [campaignRow 7 "2024-01-01" None (num 2);
               campaignRow 7 "2024-03-01" None (num 3)];
         metricsQuery := fun _ _ => Ok [] |} sampleClock = Ok reports /\
    In (formatCampaign ConsoleReport sampleClock
          (processCampaign
             {| campaignInfoQuery :=
                  Ok [campaignRow 7 "2024-01-01" None (num 2);
                      campaignRow 7 "2024-03-01" None (num 3)];
                metricsQuery := fun _ _ => Ok [] |} sampleClock
             (campaignRow 7 "2024-03-01" None (num 3))))
       reports.
Proof.
  apply (last_row_of_an_identifier_wins ConsoleReport
           {| campaignInfoQuery :=
                Ok [campaignRow 7 "2024-01-01" None (num 2);
                    campaignRow 7 "2024-03-01" None (num 3)];
              metricsQuery := fun _ _ => Ok [] |} sampleClock
           [campaignRow 7 "2024-01-01" None (num 2)] []
           (campaignRow 7 "2024-03-01" None (num 3))).
  - reflexivity.
  - intros [].
Defined.

(** ** The date range arguments *)


(** ** The last active date *)

Lemma last_In_or_default {A : Type} (l : list A) (d : A) :
  last l d = d /\ l = [] \/ In (last l d) l.
Proof.
  induction l as [|x l IH]; [left; split; reflexivity|].
  right. destruct l as [|y l]; [left; reflexivity|].
  change (last (x :: y :: l) d) with (last (y :: l) d).
  destruct IH as [[_ H]|H]; [discriminate H|right; exact H].
Qed.

Lemma filter_none {A : Type} (p : A -> bool) (l : list A) :
  forallb (fun x => negb (p x)) l = true -> filter p l = [].
Proof.
  induction l as [|x l IH]; [reflexivity|].
  cbn [forallb filter]. intros H. apply andb_true_iff in H as [Hx Hl].
  destruct (p x); [discriminate Hx|]. apply IH, Hl.
Qed.



(** ** Days of activity *)

Lemma newDate_midnight (s : string) (t : Z) :
  newDate s = Some t -> exists day, t = day * msPerDay.
Proof.
  unfold newDate.
  destruct ((String.length s =? 10)%nat && _ && _ && _ && _ && _); [|discriminate].
  destruct (_ && _ && _ && _); [|discriminate].
  intros [= <-]. eexists. reflexivity.
Qed.

Lemma ceilDiv_exact (d b : Z) : 0 < b -> ceilDiv (d * b) b = d.
Proof.
  intros Hb. unfold ceilDiv.
  replace (- (d * b)) with ((- d) * b) by lia.
  rewrite Z.div_mul by lia. lia.
Qed.

Lemma ceilDiv_between (a b k : Z) :
  0 < b -> k * b < a <= (k + 1) * b -> ceilDiv a b = k + 1.
Proof.
  intros Hb Ha. unfold ceilDiv.
  assert (- a / b = - (k + 1)) as ->; [|lia].
  symmetry. apply Z.div_unique with (r := (k + 1) * b - a); lia.
Qed.

(** X6.  For a paused campaign with valid dates, [activeDays] is the
    number of calendar days from the start date to the last active date,
    both included. *)
Theorem paused_activeDays_counts_days (clock : Clock) (campaignInfo : CampaignInfo.t)
    (rows : list MetricsRow.t) (startTime endTime : Z) :
  CampaignInfo.isPaused campaignInfo = true ->
  newDate (CampaignInfo.startDate campaignInfo) = Some startTime ->
  newDate (Aggregated.lastActiveDate (aggregateCampaign clock campaignInfo (Ok rows)))
    = Some endTime ->
  exists startDay endDay,
    startTime = startDay * msPerDay /\
    endTime = endDay * msPerDay /\
    Aggregated.activeDays (aggregateCampaign clock campaignInfo (Ok rows))
    = Some (endDay - startDay + 1).
Proof.
  intros Hpaused Hstart Hend.
  destruct (newDate_midnight _ _ Hstart) as (startDay & ->).
  destruct (newDate_midnight _ _ Hend) as (endDay & ->).
  exists startDay, endDay. split; [reflexivity|]. split; [reflexivity|].
  cbn [aggregateCampaign Aggregated.activeDays Aggregated.lastActiveDate] in *.
  unfold activeDaysOf. rewrite Hpaused, Hstart, Hend.
  replace (endDay * msPerDay - startDay * msPerDay)
    with ((endDay - startDay) * msPerDay) by lia.
  rewrite ceilDiv_exact by (unfold msPerDay; lia). reflexivity.
Qed.

Lemma paused_activeDays_counts_days_witness :
  exists startDay endDay,
    1704067200000 = startDay * msPerDay /\
    1704844800000 = endDay * msPerDay /\
    Aggregated.activeDays (aggregateCampaign sampleClock pausedCampaign (Ok tenDays))
    = Some (endDay - startDay + 1).
Proof.
  apply (paused_activeDays_counts_days sampleClock pausedCampaign tenDays);
    vm_compute; reflexivity.
Defined.

(** X7.  For a campaign that is not paused, [activeDays] counts the start
    day and every day begun since: it is 1 at the very start, and [k + 2]
    once more than [k] and at most [k + 1] whole days have passed, so 2
    during the first twenty-four hours. *)
Theorem running_activeDays_counts_begun_days (clock : Clock)
    (campaignInfo : CampaignInfo.t) (rows : list MetricsRow.t) (startTime k : Z) :
  CampaignInfo.isPaused campaignInfo = false ->
  newDate (CampaignInfo.startDate campaignInfo) = Some startTime ->
  (now clock = startTime ->
   Aggregated.activeDays (aggregateCampaign clock campaignInfo (Ok rows)) = Some 1) /\
  (startTime + k * msPerDay < now clock <= startTime + (k + 1) * msPerDay ->
   Aggregated.activeDays (aggregateCampaign clock campaignInfo (Ok rows))
   = Some (k + 2)).
Proof.
  intros Hrunning Hstart.
  cbn [aggregateCampaign Aggregated.activeDays].
  unfold activeDaysOf. rewrite Hrunning, Hstart.
  split.
  - intros ->. rewrite Z.sub_diag. reflexivity.
  - intros Hnow. rewrite (ceilDiv_between _ _ k); [f_equal; lia| |];
      unfold msPerDay in *; lia.
Qed.

Lemma running_activeDays_counts_begun_days_witness :
  Aggregated.activeDays
    (aggregateCampaign sampleClock
       (campaignInfoOf (campaignRow 15 "2025-11-01" None (num 2))) (Ok []))
  = Some (0 + 2).
Proof.
  apply (running_activeDays_counts_begun_days sampleClock
           (campaignInfoOf (campaignRow 15 "2025-11-01" None (num 2))) []
           1761955200000 0).
  - reflexivity.
  - reflexivity.
  - vm_compute. split; [reflexivity|discriminate].
Defined.

(** X8.  A paused campaign with a valid start date and no row showing
    activity has [lastActiveDate] equal to its start date and [activeDays]
    equal to 1; with no rows at all its record is the zero-metrics record
    of a failed metrics query. *)
Theorem paused_without_activity (clock : Clock) (campaignInfo : CampaignInfo.t)
    (rows : list MetricsRow.t) (startTime : Z) :
  CampaignInfo.isPaused campaignInfo = true ->
  newDate (CampaignInfo.startDate campaignInfo) = Some startTime ->
  (forallb (fun row => negb (hasActivity row)) rows = true ->
   Aggregated.lastActiveDate (aggregateCampaign clock campaignInfo (Ok rows))
     = CampaignInfo.startDate campaignInfo /\
   Aggregated.activeDays (aggregateCampaign clock campaignInfo (Ok rows)) = Some 1) /\
  aggregateCampaign clock campaignInfo (Ok []) = fallbackRecord campaignInfo.
Proof.
  intros Hpaused Hstart.
  assert (activeDaysOf (CampaignInfo.startDate campaignInfo) true
            (CampaignInfo.startDate campaignInfo) clock = Some 1) as Hone.
  { unfold activeDaysOf. rewrite Hstart, Z.sub_diag. reflexivity. }
  split.
  - intros Hquiet.
    cbn [aggregateCampaign Aggregated.lastActiveDate Aggregated.activeDays].
    assert (Totals.lastActiveDate (sumRows (CampaignInfo.startDate campaignInfo) rows)
            = CampaignInfo.startDate campaignInfo) as Hlast.
    { unfold sumRows. rewrite fold_addRow_lastActiveDate.
      cbn [initialTotals Totals.lastActiveDate].
      rewrite (filter_none _ _ Hquiet). reflexivity. }
    rewrite Hlast, Hpaused. split; [reflexivity|exact Hone].
  - cbn [aggregateCampaign sumRows fold_left initialTotals Totals.lastActiveDate
         Totals.totalCost Totals.totalConversions Totals.totalConversionsValue
         Totals.totalImpressions Totals.totalClicks].
    rewrite Hpaused, Hone. reflexivity.
Qed.

Lemma paused_without_activity_witness :
  aggregateCampaign sampleClock pausedCampaign (Ok []) = fallbackRecord pausedCampaign.
Proof.
  apply (paused_without_activity sampleClock pausedCampaign [] 1704067200000);
    reflexivity.
Defined.

(** ** The fields of one record *)

Lemma string_append_assoc (a b c : string) : (a ++ b) ++ c = a ++ (b ++ c).
Proof.
  induction a as [|x a IH]; [reflexivity|]. cbn [append]. rewrite IH. reflexivity.
Qed.

Lemma formatStatus_unpaused (status : JsValue) (activeDays : option Z) :
  formatStatus status false activeDays = statusLabel status.
Proof.
  unfold formatStatus, statusLabel, isNumericCode.
  destruct (typeofIsNumber status || negb (isNaN status)).
  - destruct (parseInt status) as [code|]; [|reflexivity].
    cbn [lookup numericStatusTable].
    repeat (destruct (code =? _); [reflexivity|]). reflexivity.
  - destruct status as [| |x|s]; try reflexivity.
    cbn [lookup namedStatusTable].
    repeat (destruct (String.eqb s _); [reflexivity|]). reflexivity.
Qed.

(** X9.  The fields of a record agree with one another: when [isPaused],
    [endDate] is [Paused on] followed by the [lastActiveDate] field and
    [status] is the label of the status followed by [(Ran for ...)] around
    the [activeDuration] field; otherwise [status] is the bare label and
    [endDate] is [No end date] or the end date of the campaign. *)
Theorem record_fields_agree (file : SourceFile) (clock : Clock)
    (campaign : Aggregated.t) :
  let report := formatCampaign file clock campaign in
  let campaignInfo := Aggregated.info campaign in
  (Report.isPaused report = true ->
   Report.endDate report = "Paused on " ++ Report.lastActiveDate report /\
   Report.status report
   = JsStr (ToString (statusLabel (CampaignInfo.status campaignInfo))
            ++ " (Ran for " ++ Report.activeDuration report ++ ")")) /\
  (Report.isPaused report = false ->
   Report.status report = statusLabel (CampaignInfo.status campaignInfo) /\
   (Report.endDate report = "No end date" \/
    CampaignInfo.endDate campaignInfo = Some (Report.endDate report))).
Proof.
  cbv zeta.
  cbn [formatCampaign Report.isPaused Report.endDate Report.lastActiveDate
       Report.status Report.activeDuration].
  split; intros Hpaused; rewrite Hpaused.
  - split; [reflexivity|].
    rewrite <- (formatStatus_unpaused _ (Aggregated.activeDays campaign)).
    unfold formatStatus at 1. f_equal. f_equal. f_equal.
    rewrite string_append_assoc. reflexivity.
  - split; [apply formatStatus_unpaused|].
    unfold formatEndDate.
    destruct (CampaignInfo.endDate (Aggregated.info campaign)) as [[|c date]|];
      [left; reflexivity| |left; reflexivity].
    destruct (parseIntString _) as [endYear|]; [|right; reflexivity].
    destruct (currentYear clock + 10 <? endYear);
      [left; reflexivity|right; reflexivity].
Qed.

Lemma record_fields_agree_witness :
  Report.endDate
    (formatCampaign ConsoleReport sampleClock
       (aggregateCampaign sampleClock pausedCampaign (Ok tenDays)))
  = "Paused on "
    ++ Report.lastActiveDate
         (formatCampaign ConsoleReport sampleClock
            (aggregateCampaign sampleClock pausedCampaign (Ok tenDays))) /\
  Report.status
    (formatCampaign ConsoleReport sampleClock
       (aggregateCampaign sampleClock pausedCampaign (Ok tenDays)))
  = JsStr (ToString (statusLabel (CampaignInfo.status pausedCampaign))
           ++ " (Ran for "
           ++ Report.activeDuration
                (formatCampaign ConsoleReport sampleClock
                   (aggregateCampaign sampleClock pausedCampaign (Ok tenDays)))
           ++ ")").
Proof.
  apply (record_fields_agree ConsoleReport sampleClock
           (aggregateCampaign sampleClock pausedCampaign (Ok tenDays))).
  reflexivity.
Defined.


(** ** Texts that are not blank *)

Lemma trimStart_blank (s : string) :
  trimStart s = EmptyString <-> allWhiteSpace s = true.
Proof.
  induction s as [|c s IH]; [split; reflexivity|].
  cbn [trimStart allWhiteSpace]. destruct (isWhiteSpace c).
  - exact IH.
  - split; discriminate.
Qed.

Lemma trimStart_visible (s : string) :
  trimStart s = EmptyString \/ startsVisible (trimStart s) = true.
Proof.
  induction s as [|c s IH]; [left; reflexivity|].
  cbn [trimStart]. destruct (isWhiteSpace c) eqn:E; [exact IH|].
  right. cbn [startsVisible]. rewrite E. reflexivity.
Qed.

Lemma trimEnd_visible (s : string) :
  startsVisible s = true -> trimEnd s <> EmptyString.
Proof.
  destruct s as [|c r]; [discriminate|].
  cbn [startsVisible trimEnd]. intros Hc.
  destruct (trimEnd r); [|discriminate].
  destruct (isWhiteSpace c); discriminate.
Qed.

(** [trim] leaves nothing exactly of the texts made of white space. *)
Lemma trim_blank (s : string) :
  trim s = EmptyString <-> allWhiteSpace s = true.
Proof.
  unfold trim. rewrite <- trimStart_blank. split.
  - intros H. destruct (trimStart_visible s) as [E|E]; [exact E|].
    exfalso. exact (trimEnd_visible _ E H).
  - intros ->. reflexivity.
Qed.

Lemma trim_visible (s : string) : startsVisible s = true -> trim s <> EmptyString.
Proof.
  intros H. rewrite trim_blank.
  destruct s as [|c r]; [discriminate|]. cbn in *.
  destruct (isWhiteSpace c); [discriminate|]. discriminate.
Qed.

Lemma digitChar_visible (d : Z) : 0 <= d < 10 -> isWhiteSpace (digitChar d) = false.
Proof.
  intros H.
  assert (d = 0 \/ d = 1 \/ d = 2 \/ d = 3 \/ d = 4 \/ d = 5 \/ d = 6 \/ d = 7
          \/ d = 8 \/ d = 9) as Hd by lia.
  repeat (destruct Hd as [-> | Hd]; [reflexivity|]). subst d. reflexivity.
Qed.

Lemma digitsFuel_visible (fuel : nat) : forall n acc,
  startsVisible (digitsFuel (S fuel) n acc) = true.
Proof.
  induction fuel as [|fuel IH]; intros n acc; cbn [digitsFuel].
  - assert (startsVisible (String (digitChar (n mod 10)) acc) = true) as H.
    { cbn [startsVisible]. rewrite digitChar_visible; [reflexivity|].
      apply Z.mod_pos_bound. lia. }
    destruct (n <? 10); exact H.
  - destruct (n <? 10).
    + cbn [startsVisible]. rewrite digitChar_visible; [reflexivity|].
      apply Z.mod_pos_bound. lia.
    + apply (IH (n / 10)).
Qed.

Lemma decimalDigits_visible (n : Z) : startsVisible (decimalDigits n) = true.
Proof. apply digitsFuel_visible. Qed.

Lemma visible_append (a b : string) :
  startsVisible a = true -> startsVisible (a ++ b) = true.
Proof. destruct a; [discriminate|]. intros H. exact H. Qed.

Lemma visible_substring (a : string) (k : nat) :
  startsVisible a = true -> startsVisible (substring 0 (S k) a) = true.
Proof. destruct a; [discriminate|]. intros H. exact H. Qed.

Lemma positiveToString_visible (m : positive) (e : Z) :
  startsVisible (positiveToString m e) = true.
Proof.
  unfold positiveToString.
  destruct (shortestDigits 17 1 (Z.pos m) e (decimalExponent (Z.pos m) e)) as [s0 k0].
  assert (forall s k n,
            startsVisible
              (let ds := decimalDigits s in
               if (-5 <=? n) && (n <=? 21)
               then
                 if k <=? n then ds ++ zeros (Z.to_nat (n - k))
                 else if 0 <? n
                      then substring 0 (Z.to_nat n) ds ++ "."
                           ++ substring (Z.to_nat n) (Z.to_nat (k - n)) ds
                      else "0." ++ zeros (Z.to_nat (- n)) ++ ds
               else
                 let ex := (if 0 <? n - 1 then "+" else "-")
                           ++ decimalDigits (Z.abs (n - 1)) in
                 if k =? 1 then ds ++ "e" ++ ex
                 else substring 0 1 ds ++ "."
                      ++ substring 1 (Z.to_nat (k - 1)) ds ++ "e" ++ ex) = true)
    as Hshape.
  { intros s k n. cbv zeta.
    pose proof (decimalDigits_visible s) as Hds.
    destruct ((-5 <=? n) && (n <=? 21)).
    - destruct (k <=? n); [apply visible_append, Hds|].
      destruct (0 <? n) eqn:En; [|reflexivity].
      apply Z.ltb_lt in En.
      destruct (Z.to_nat n) as [|j] eqn:Ej; [lia|].
      apply visible_append, visible_substring, Hds.
    - destruct (k =? 1); [apply visible_append, Hds|].
      apply visible_append, (visible_substring _ 0), Hds. }
  destruct (s0 =? 10 ^ k0); apply Hshape.
Qed.

Lemma numberToString_visible (x : number) : startsVisible (numberToString x) = true.
Proof.
  destruct x as [s|[]| |s m e]; try reflexivity.
  cbn [numberToString].
  destruct (binary_round 53 1024 false m e) as [s'|s'| |s' m' e']; try reflexivity.
  - destruct s; reflexivity.
  - destruct s; [reflexivity|]. apply positiveToString_visible.
Qed.

(** ** Documents *)

Lemma assocSet_lookup {V : Type} (key : string) (value : V)
    (m : list (string * V)) (k : string) :
  lookup String.eqb (assocSet key value m) k
  = if String.eqb k key then Some value else lookup String.eqb m k.
Proof.
  induction m as [|[k0 v0] m IH].
  - cbn [assocSet lookup]. destruct (String.eqb k key); reflexivity.
  - cbn [assocSet lookup]. destruct (String.eqb k0 key) eqn:E0.
    + apply String.eqb_eq in E0. subst k0. cbn [lookup].
      destruct (String.eqb k key); reflexivity.
    + cbn [lookup]. rewrite IH.
      destruct (String.eqb k k0) eqn:E1; [|reflexivity].
      apply String.eqb_eq in E1. subst k0.
      rewrite E0. reflexivity.
Qed.

Lemma lookup_none {V : Type} (m : list (string * V)) (k : string) :
  ~ In k (map fst m) -> lookup String.eqb m k = None.
Proof.
  induction m as [|[k0 v0] m IH]; [reflexivity|].
  cbn [map fst In lookup]. intros H.
  destruct (String.eqb_spec k k0) as [->|Hne]; [tauto|]. apply IH. tauto.
Qed.

Lemma lookup_some {V : Type} (m : list (string * V)) (k : string) (v : V) :
  NoDup (map fst m) -> In (k, v) m -> lookup String.eqb m k = Some v.
Proof.
  induction m as [|[k0 v0] m IH]; [intros _ []|].
  cbn [map fst In lookup]. intros Hnodup [[= -> ->]|Hin].
  - rewrite String.eqb_refl. reflexivity.
  - inversion Hnodup as [|? ? Hfresh Hrest]; subst.
    destruct (String.eqb_spec k k0) as [->|Hne]; [|apply IH; assumption].
    exfalso. apply Hfresh. apply (in_map fst) in Hin. exact Hin.
Qed.

Lemma mergeFields_lookup (data doc : Document) (name : string) :
  NoDup (map fst data) ->
  lookup String.eqb (mergeFields data doc) name
  = match lookup String.eqb data name with
    | Some value => Some value
    | None => lookup String.eqb doc name
    end.
Proof.
  unfold mergeFields. revert doc.
  induction data as [|[k v] data IH]; intros doc Hnodup; [reflexivity|].
  inversion Hnodup as [|? ? Hfresh Hrest]; subst.
  cbn [fold_left fst snd lookup]. rewrite (IH _ Hrest), assocSet_lookup.
  destruct (String.eqb name k) eqn:E; [|reflexivity].
  apply String.eqb_eq in E. subst k.
  rewrite (lookup_none data name Hfresh). reflexivity.
Qed.

Lemma reportFields_names (campaign : Report.t) :
  NoDup (map fst (reportFields campaign)).
Proof.
  cbn [reportFields map fst].
  repeat (constructor; [cbn [In]; intuition discriminate|]). constructor.
Qed.

Lemma saveCampaign_fieldOf (rejects : Report.t -> bool) (db : Firestore)
    (campaign : Report.t) (docId name : string) :
  fieldOf (saveCampaign rejects db campaign) docId name
  = writes rejects docId name (fieldOf db docId name) campaign.
Proof.
  unfold saveCampaign, writes.
  destruct (documentId campaign) as [id|]; [|reflexivity].
  destruct (rejects campaign); [reflexivity|]. cbn [negb andb].
  unfold fieldOf.
  destruct (lookup String.eqb db id) as [doc|] eqn:Edoc;
    rewrite assocSet_lookup;
    (destruct (String.eqb docId id) eqn:E; [|reflexivity]);
    apply String.eqb_eq in E; subst docId; rewrite Edoc.
  - apply mergeFields_lookup, reportFields_names.
  - destruct (lookup String.eqb (reportFields campaign) name); reflexivity.
Qed.

Lemma save_fieldOf (rejects : Report.t -> bool) (campaigns : list Report.t) :
  forall (db : Firestore) (docId name : string),
  fieldOf (saveGoogleAdsDataToFirestore rejects campaigns db) docId name
  = fold_left (writes rejects docId name) campaigns (fieldOf db docId name).
Proof.
  unfold saveGoogleAdsDataToFirestore.
  induction campaigns as [|c campaigns IH]; intros db docId name; [reflexivity|].
  cbn [fold_left]. rewrite IH, saveCampaign_fieldOf. reflexivity.
Qed.

(** ** The sync *)

(** X11.  A record whose [campaignId] is not a string, or is an empty or
    blank one, is not stored; in particular nothing of the console report,
    whose identifiers are numbers, would be stored. *)
Theorem records_without_text_id_are_skipped (rejects : Report.t -> bool)
    (campaigns : list Report.t) (db : Firestore) :
  (Forall (fun campaign =>
             forall s, Report.campaignId campaign = JsStr s -> allWhiteSpace s = true)
     campaigns ->
   saveGoogleAdsDataToFirestore rejects campaigns db = db) /\
  (forall customer clock,
     getCampaignData ConsoleReport customer clock = Ok campaigns ->
     saveGoogleAdsDataToFirestore rejects campaigns db = db).
Proof.
  assert (Forall (fun campaign =>
                    forall s, Report.campaignId campaign = JsStr s ->
                              allWhiteSpace s = true) campaigns ->
          saveGoogleAdsDataToFirestore rejects campaigns db = db) as Hskip.
  { unfold saveGoogleAdsDataToFirestore. induction 1 as [|c cs Hc _ IH];
      [reflexivity|].
    cbn [fold_left].
    assert (saveCampaign rejects db c = db) as ->; [|exact IH].
    unfold saveCampaign, documentId.
    destruct (Report.campaignId c) as [| |x|s]; try reflexivity.
    specialize (Hc s eq_refl). apply trim_blank in Hc. rewrite Hc. reflexivity. }
  split; [exact Hskip|].
  intros customer clock Hreport. apply Hskip.
  unfold getCampaignData in Hreport.
  destruct (campaignInfoQuery customer); [|discriminate].
  injection Hreport as <-.
  rewrite Forall_map. apply Forall_forall. intros campaign _ s H.
  discriminate H.
Qed.

Lemma records_without_text_id_are_skipped_witness :
  saveGoogleAdsDataToFirestore (fun _ => false)
    (map (formatCampaign ConsoleReport sampleClock)
       (map (processCampaign oneFailure sampleClock) fiveCampaigns)) []
  = [].
Proof.
  apply (records_without_text_id_are_skipped (fun _ => false)
           (map (formatCampaign ConsoleReport sampleClock)
              (map (processCampaign oneFailure sampleClock) fiveCampaigns)) [])
    with (customer := oneFailure) (clock := sampleClock).
  vm_compute. reflexivity.
Defined.

Lemma documentId_sync (clock : Clock) (campaign : Aggregated.t) :
  documentId (formatCampaign FirestoreSync clock campaign)
  = Some (numberToString (ofZ (CampaignInfo.id (Aggregated.info campaign)))).
Proof.
  unfold documentId. cbn [formatCampaign Report.campaignId].
  destruct (String.eqb_spec
              (trim (numberToString (ofZ (CampaignInfo.id (Aggregated.info campaign)))))
              EmptyString) as [E|E]; [|reflexivity].
  exfalso. exact (trim_visible _ (numberToString_visible _) E).
Qed.



(** X13.  Storing a record is an upsert that merges: afterwards its
    document holds every field of the record, keeps the other fields it
    had, and no other document has changed. *)
Theorem save_is_a_merging_upsert (rejects : Report.t -> bool) (db : Firestore)
    (campaign : Report.t) (docId : string) :
  documentId campaign = Some docId ->
  rejects campaign = false ->
  (forall name value,
     In (name, value) (reportFields campaign) ->
     fieldOf (saveCampaign rejects db campaign) docId name = Some value) /\
  (forall name,
     ~ In name (map fst (reportFields campaign)) ->
     fieldOf (saveCampaign rejects db campaign) docId name = fieldOf db docId name) /\
  (forall other name,
     other <> docId ->
     fieldOf (saveCampaign rejects db campaign) other name = fieldOf db other name).
Proof.
  intros Hid Haccepts.
  split; [|split].
  - intros name value Hin. rewrite saveCampaign_fieldOf. unfold writes.
    rewrite Hid, Haccepts, String.eqb_refl. cbn [negb andb].
    rewrite (lookup_some _ _ _ (reportFields_names campaign) Hin). reflexivity.
  - intros name Hforeign. rewrite saveCampaign_fieldOf. unfold writes.
    rewrite Hid, Haccepts, String.eqb_refl. cbn [negb andb].
    rewrite (lookup_none _ _ Hforeign). reflexivity.
  - intros other name Hother. rewrite saveCampaign_fieldOf. unfold writes.
    rewrite Hid. apply String.eqb_neq in Hother. rewrite Hother, andb_false_r.
    reflexivity.
Qed.

Lemma save_is_a_merging_upsert_witness :
  fieldOf
    (saveCampaign (fun _ => false)
       [("12", [("note", FieldOf (JsStr "keep")); ("totalCost", FieldOf (JsStr "1.00"))])]
       (formatCampaign FirestoreSync sampleClock
          (aggregateCampaign sampleClock pausedCampaign (Ok tenDays))))
    "12" "note"
  = fieldOf
      [("12", [("note", FieldOf (JsStr "keep")); ("totalCost", FieldOf (JsStr "1.00"))])]
      "12" "note".
Proof.
  destruct (save_is_a_merging_upsert (fun _ => false)
              [("12", [("note", FieldOf (JsStr "keep"));
                       ("totalCost", FieldOf (JsStr "1.00"))])]
              (formatCampaign FirestoreSync sampleClock
                 (aggregateCampaign sampleClock pausedCampaign (Ok tenDays))) "12")
    as (_ & Hkeep & _).
  - vm_compute. reflexivity.
  - reflexivity.
  - apply Hkeep. intros H. vm_compute in H.
    repeat (destruct H as [H|H]; [discriminate H|]). exact H.
Defined.

(** X14.  A record whose document cannot be read or written is passed
    over and the loop goes on: the outcome is that of storing the other
    records with nothing failing. *)
Theorem rejected_writes_are_isolated (rejects : Report.t -> bool)
    (campaigns : list Report.t) (db : Firestore) :
  saveGoogleAdsDataToFirestore rejects campaigns db
  = saveGoogleAdsDataToFirestore (fun _ => false)
      (filter (fun campaign => negb (rejects campaign)) campaigns) db.
Proof.
  unfold saveGoogleAdsDataToFirestore. revert db.
  induction campaigns as [|c campaigns IH]; intros db; [reflexivity|].
  cbn [fold_left filter].
  destruct (rejects c) eqn:E; cbn [negb].
  - rewrite <- IH. f_equal. unfold saveCampaign. rewrite E.
    destruct (documentId c); reflexivity.
  - cbn [fold_left]. rewrite <- IH. f_equal. unfold saveCampaign. rewrite E.
    reflexivity.
Qed.

Lemma writes_constant_or_identity (rejects : Report.t -> bool) (docId name : string)
    (campaign : Report.t) :
  (forall previous, writes rejects docId name previous campaign = previous) \/
  (exists value, forall previous,
      writes rejects docId name previous campaign = Some value).
Proof.
  unfold writes.
  destruct (documentId campaign) as [id|]; [|left; reflexivity].
  destruct (negb (rejects campaign) && String.eqb docId id); [|left; reflexivity].
  destruct (lookup String.eqb (reportFields campaign) name) as [value|];
    [right; exists value; reflexivity|left; reflexivity].
Qed.

(** X15.  Storing a batch a second time changes no field of any document:
    the sync can be repeated. *)
Theorem saving_twice_changes_nothing (rejects : Report.t -> bool)
    (campaigns : list Report.t) (db : Firestore) (docId name : string) :
  fieldOf
    (saveGoogleAdsDataToFirestore rejects campaigns
       (saveGoogleAdsDataToFirestore rejects campaigns db)) docId name
  = fieldOf (saveGoogleAdsDataToFirestore rejects campaigns db) docId name.
Proof.
  rewrite !save_fieldOf.
  generalize (fieldOf db docId name) as previous.
  induction campaigns as [|c campaigns IH] using rev_ind; intros previous;
    [reflexivity|].
  rewrite !fold_left_app. cbn [fold_left].
  destruct (writes_constant_or_identity rejects docId name c) as [Hid|[value Hconst]].
  - rewrite !Hid. apply IH.
  - rewrite !Hconst. reflexivity.
Qed.

Lemma documentId_processed (customer : Customer) (clock : Clock)
    (row : CampaignRow.t) :
  documentId (formatCampaign FirestoreSync clock (processCampaign customer clock row))
  = Some (numberToString (ofZ (CampaignRow.id row))).
Proof.
  rewrite documentId_sync. unfold processCampaign. cbv zeta.
  destruct (metricsQuery customer _ _); reflexivity.
Qed.

(** X16.  [overAllData] end to end.  When the catalogue query fails,
    nothing is written.  Otherwise, with campaigns of distinct identifiers
    and no failing document, every campaign of the catalogue ends up with
    a document, named by the decimal text of its identifier, that holds
    every field of its record. *)
Theorem overAllData_stores_every_campaign (customer : Customer) (clock : Clock)
    (rejects : Report.t -> bool) (db : Firestore) :
  (forall message,
     campaignInfoQuery customer = Throw message ->
     overAllData customer clock rejects db = db) /\
  (forall campaignInfoResult row name value,
     campaignInfoQuery customer = Ok campaignInfoResult ->
     NoDup (map (fun r => numberToString (ofZ (CampaignRow.id r))) campaignInfoResult) ->
     (forall report, rejects report = false) ->
     In row campaignInfoResult ->
     In (name, value)
       (reportFields
          (formatCampaign FirestoreSync clock (processCampaign customer clock row))) ->
     fieldOf (overAllData customer clock rejects db)
       (numberToString (ofZ (CampaignRow.id row))) name
     = Some value).
Proof.
  split.
  - intros message Hquery. unfold overAllData, getCampaignData.
    rewrite Hquery. reflexivity.
  - intros rows row name value Hquery Hnodup Haccepts Hrow Hfield.
    assert (NoDup (map CampaignRow.id rows)) as Hids.
    { rewrite <- (map_map CampaignRow.id (fun id => numberToString (ofZ id))) in Hnodup.
      exact (NoDup_map_inv _ _ Hnodup). }
    unfold overAllData, getCampaignData. rewrite Hquery. cbv zeta.
    rewrite (collect_distinct customer clock rows Hids), map_map, save_fieldOf.
    set (docId := numberToString (ofZ (CampaignRow.id row))).
    set (record := fun r => formatCampaign FirestoreSync clock
                              (processCampaign customer clock r)).
    destruct (in_split _ _ Hrow) as (before & after & ->).
    rewrite map_app, fold_left_app. cbn [map fold_left].
    assert (writes rejects docId name
              (fold_left (writes rejects docId name) (map record before)
                 (fieldOf db docId name)) (record row) = Some value) as ->.
    { unfold writes, record. rewrite documentId_processed, Haccepts.
      subst docId. rewrite String.eqb_refl. cbn [negb andb].
      rewrite (lookup_some _ _ _ (reportFields_names _) Hfield). reflexivity. }
    rewrite map_app in Hnodup. cbn [map] in Hnodup.
    apply NoDup_remove_2 in Hnodup.
    assert (forall r, In r after ->
                      numberToString (ofZ (CampaignRow.id r)) <> docId) as Hafter.
    { intros r Hr E. apply Hnodup. apply in_or_app. right.
      unfold docId in E. cbv beta. rewrite <- E. apply (in_map (fun r => numberToString (ofZ (CampaignRow.id r)))).
      exact Hr. }
    clear Hnodup Hrow Hids Hquery. induction after as [|r after IH]; [reflexivity|].
    cbn [map fold_left].
    assert (writes rejects docId name (Some value) (record r) = Some value) as ->.
    { unfold writes, record. rewrite documentId_processed.
      assert (String.eqb docId (numberToString (ofZ (CampaignRow.id r))) = false) as ->.
      { apply String.eqb_neq. intros E. apply (Hafter r); [left; reflexivity|].
        symmetry. exact E. }
      rewrite andb_false_r. reflexivity. }
    apply IH. intros r' Hr'. apply Hafter. right. exact Hr'.
Qed.

Lemma overAllData_stores_every_campaign_witness :
  fieldOf (overAllData oneFailure sampleClock (fun _ => false) [])
    (numberToString (ofZ 102)) "status"
  = Some (FieldOf (JsStr "Paused (Ran for 10 days)")).
Proof.
  destruct (overAllData_stores_every_campaign oneFailure sampleClock (fun _ => false) [])
    as [_ H].
  apply (H fiveCampaigns (campaignRow 102 "2024-01-01" (Some "2037-12-30") (num 3))).
  - reflexivity.
  - vm_compute. repeat constructor; cbn [In]; intuition discriminate.
  - reflexivity.
  - right. left. reflexivity.
  - vm_compute. do 4 right. left. reflexivity.
Defined.

(** ** The date window of the metrics report *)

Lemma digit_not_hyphen (c : ascii) :
  isDecimalDigit c = true -> Ascii.eqb c "-" = false.
Proof.
  intros H. destruct (Ascii.eqb_spec c "-") as [->|]; [discriminate H|reflexivity].
Qed.

Lemma isIsoDate_shape (s : string) :
  isIsoDate s = true ->
  exists y1 y2 y3 y4 m1 m2 d1 d2,
    s = String y1 (String y2 (String y3 (String y4 (String "-"
         (String m1 (String m2 (String "-" (String d1 (String d2 "")))))))))
    /\ Forall (fun c => isDecimalDigit c = true) [y1; y2; y3; y4; m1; m2; d1; d2].
Proof.
  unfold isIsoDate. intros H.
  repeat (apply andb_true_iff in H as [H ?]).
  apply Nat.eqb_eq in H.
  do 10 (destruct s as [|? s]; [discriminate H|]).
  destruct s; [|discriminate H].
  cbn in *.
  repeat match goal with
         | E : _ && _ = true |- _ => apply andb_true_iff in E as [? ?]
         | E : (if Ascii.eqb ?a ?b then _ else _) = true |- _ =>
             destruct (Ascii.eqb_spec a b); [subst|discriminate E]
         end.
  do 8 eexists. split; [reflexivity|].
  repeat constructor; assumption.
Qed.

Lemma removeHyphens_iso (s : string) :
  isIsoDate s = true ->
  exists c1 c2 c3 c4 c5 c6 c7 c8,
    removeHyphens s
    = String c1 (String c2 (String c3 (String c4 (String c5 (String c6
        (String c7 (String c8 "")))))))
    /\ Forall (fun c => isDecimalDigit c = true) [c1; c2; c3; c4; c5; c6; c7; c8].
Proof.
  intros H. destruct (isIsoDate_shape s H)
    as (y1 & y2 & y3 & y4 & m1 & m2 & d1 & d2 & -> & Hdigits).
  exists y1, y2, y3, y4, m1, m2, d1, d2. split; [|exact Hdigits].
  repeat match goal with
         | E : Forall _ (_ :: _) |- _ => inversion E; subst; clear E
         end.
  cbn [removeHyphens].
  repeat match goal with
         | E : isDecimalDigit ?c = true |- _ =>
             rewrite (digit_not_hyphen c E); revert E
         end.
  intros. cbn. reflexivity.
Qed.

Lemma removeHyphens_compact (s : string) :
  isIsoDate s = true -> isCompactDate (removeHyphens s) = true.
Proof.
  intros H. destruct (removeHyphens_iso s H)
    as (c1 & c2 & c3 & c4 & c5 & c6 & c7 & c8 & -> & Hdigits).
  repeat match goal with
         | E : Forall _ (_ :: _) |- _ => inversion E; subst; clear E
         end.
  unfold isCompactDate. cbn [String.length Nat.eqb allDecimalDigits andb].
  repeat match goal with
         | E : isDecimalDigit _ = true |- _ => rewrite E; clear E
         end.
  reflexivity.
Qed.

Lemma removeHyphens_not_paused (s : string) :
  isIsoDate s = true -> prefix "Paused on " (removeHyphens s) = false.
Proof.
  intros H. destruct (removeHyphens_iso s H)
    as (c1 & c2 & c3 & c4 & c5 & c6 & c7 & c8 & -> & Hdigits).
  inversion Hdigits as [|? ? Hc1 _]; subst. cbn [prefix].
  destruct (ascii_dec "P" c1) as [<-|]; [discriminate Hc1|reflexivity].
Qed.

Lemma iso_is_not_a_label (s : string) :
  isIsoDate s = true -> String.eqb s "No end date" = false.
Proof.
  intros H. destruct (isIsoDate_shape s H)
    as (y1 & y2 & y3 & y4 & m1 & m2 & d1 & d2 & -> & _).
  apply String.eqb_neq. intros E. apply (f_equal String.length) in E. discriminate E.
Qed.

Lemma decimalDigits_one (n : Z) :
  0 <= n < 10 -> decimalDigits n = String (digitChar n) "".
Proof.
  intros H. unfold decimalDigits. cbn [digitsFuel].
  destruct (Z.ltb_spec n 10); [|lia]. rewrite Z.mod_small by lia. reflexivity.
Qed.

Lemma decimalDigits_two (n : Z) :
  10 <= n < 100 ->
  decimalDigits n = String (digitChar (n / 10)) (String (digitChar (n mod 10)) "").
Proof.
  intros H. unfold decimalDigits.
  assert (3 <= Z.log2 n) as Hlog.
  { change 3 with (Z.log2 10). apply Z.log2_le_mono. lia. }
  destruct (Z.to_nat (Z.log2 n)) as [|fuel] eqn:E; [Z.to_euclidean_division_equations; lia|].
  cbn [digitsFuel].
  destruct (Z.ltb_spec n 10); [Z.to_euclidean_division_equations; lia|].
  destruct (Z.ltb_spec (n / 10) 10); [|Z.to_euclidean_division_equations; lia].
  rewrite (Z.mod_small (n / 10)) by (Z.to_euclidean_division_equations; lia). reflexivity.
Qed.

Lemma decimalDigits_four (n : Z) :
  1000 <= n < 10000 ->
  decimalDigits n
  = String (digitChar (n / 1000))
      (String (digitChar (n / 100 mod 10))
         (String (digitChar (n / 10 mod 10)) (String (digitChar (n mod 10)) ""))).
Proof.
  intros H. unfold decimalDigits.
  assert (9 <= Z.log2 n) as Hlog.
  { change 9 with (Z.log2 1000). apply Z.log2_le_mono. lia. }
  destruct (Z.to_nat (Z.log2 n)) as [|[|[|fuel]]] eqn:E; try lia.
  cbn [digitsFuel].
  destruct (Z.ltb_spec n 10); [Z.to_euclidean_division_equations; lia|].
  destruct (Z.ltb_spec (n / 10) 10); [Z.to_euclidean_division_equations; lia|].
  destruct (Z.ltb_spec (n / 10 / 10) 10); [Z.to_euclidean_division_equations; lia|].
  destruct (Z.ltb_spec (n / 10 / 10 / 10) 10); [|Z.to_euclidean_division_equations; lia].
  rewrite (Z.mod_small (n / 10 / 10 / 10)) by (Z.to_euclidean_division_equations; lia).
  rewrite !Z.div_div by (Z.to_euclidean_division_equations; lia). reflexivity.
Qed.

Lemma padded_two (n : Z) :
  0 <= n < 100 ->
  exists a b, padded n = String a (String b "")
              /\ isDecimalDigit a = true /\ isDecimalDigit b = true.
Proof.
  intros H. unfold padded, integerToString.
  destruct (Z.ltb_spec n 0); [Z.to_euclidean_division_equations; lia|].
  destruct (Z.ltb_spec n 10).
  - rewrite decimalDigits_one by (Z.to_euclidean_division_equations; lia). exists "0"%char, (digitChar n).
    split; [reflexivity|]. split; [reflexivity|].
    apply digitChar_isDecimalDigit. lia.
  - rewrite decimalDigits_two by (Z.to_euclidean_division_equations; lia). exists (digitChar (n / 10)), (digitChar (n mod 10)).
    split; [reflexivity|]. split; apply digitChar_isDecimalDigit; Z.to_euclidean_division_equations; lia.
Qed.

Lemma todayCompact_compact (today : Today) :
  1000 <= getFullYear today <= 9999 ->
  0 <= getMonth today <= 11 ->
  1 <= getDate today <= 31 ->
  isCompactDate (todayCompact today) = true.
Proof.
  intros Hy Hm Hd. unfold todayCompact, integerToString.
  destruct (Z.ltb_spec (getFullYear today) 0); [lia|].
  rewrite decimalDigits_four by lia.
  destruct (padded_two (getMonth today + 1)) as (m1 & m2 & -> & Hm1 & Hm2); [lia|].
  destruct (padded_two (getDate today)) as (d1 & d2 & -> & Hd1 & Hd2); [lia|].
  unfold isCompactDate.
  cbn [String.append String.length Nat.eqb allDecimalDigits andb].
  rewrite !digitChar_isDecimalDigit, Hm1, Hm2, Hd1, Hd2
    by (Z.to_euclidean_division_equations; lia). reflexivity.
Qed.

(** X17.  The window that [getCampaignMetrics] computes from a record of
    the report.  With dates of the shape [YYYY-MM-DD] and a four-digit
    year on the clock, both bounds are eight digits, [YYYYMMDD]: the lower
    bound is the start date; the upper bound is the last active date of a
    paused campaign, today for a campaign with no end date, and the end
    date otherwise. *)
Theorem metrics_window_of_a_record (file : SourceFile) (clock : Clock)
    (today : Today) (campaign : Aggregated.t) :
  let report := formatCampaign file clock campaign in
  let window := metricsWindow today report in
  1000 <= getFullYear today <= 9999 ->
  0 <= getMonth today <= 11 ->
  1 <= getDate today <= 31 ->
  isIsoDate (Report.startDate report) = true ->
  isIsoDate (Report.lastActiveDate report) = true ->
  (forall date, CampaignInfo.endDate (Aggregated.info campaign) = Some date ->
                date = "" \/ isIsoDate date = true) ->
  fst window = removeHyphens (Report.startDate report) /\
  isCompactDate (fst window) = true /\
  isCompactDate (snd window) = true /\
  snd window
  = (if Report.isPaused report then removeHyphens (Report.lastActiveDate report)
     else if String.eqb (Report.endDate report) "No end date"
          then todayCompact today
          else removeHyphens (Report.endDate report)).
Proof.
  intros report window Hy Hm Hd Hstart Hlast Hend.
  split; [reflexivity|]. split; [exact (removeHyphens_compact _ Hstart)|].
  assert (snd window
          = (if Report.isPaused report then removeHyphens (Report.lastActiveDate report)
             else if String.eqb (Report.endDate report) "No end date"
                  then todayCompact today
                  else removeHyphens (Report.endDate report))) as Hsnd.
  { subst window. unfold metricsWindow. cbv zeta. cbn [snd].
    destruct (Report.isPaused report) eqn:Hpaused.
    - assert (String.eqb (Report.endDate report) "No end date" = false) as ->.
      { subst report. cbn [formatCampaign Report.endDate Report.isPaused] in *.
        rewrite Hpaused. reflexivity. }
      rewrite (removeHyphens_not_paused _ Hlast). reflexivity.
    - destruct (String.eqb (Report.endDate report) "No end date") eqn:Hlabel;
        [reflexivity|].
      assert (isIsoDate (Report.endDate report) = true) as Hiso.
      { subst report. cbn [formatCampaign Report.endDate Report.isPaused] in *.
        rewrite Hpaused in *. unfold formatEndDate in *.
        destruct (CampaignInfo.endDate (Aggregated.info campaign)) as [date|];
          [|discriminate Hlabel].
        destruct (Hend date eq_refl) as [->|Hiso]; [discriminate Hlabel|].
        destruct date as [|c date]; [discriminate Hiso|].
        destruct (parseIntString _) as [endYear|]; [|exact Hiso].
        destruct (currentYear clock + 10 <? endYear); [discriminate Hlabel|exact Hiso]. }
      rewrite (removeHyphens_not_paused _ Hiso). reflexivity. }
  split; [|exact Hsnd]. rewrite Hsnd.
  destruct (Report.isPaused report) eqn:Hpaused.
  - exact (removeHyphens_compact _ Hlast).
  - destruct (String.eqb (Report.endDate report) "No end date") eqn:Hlabel.
    + apply todayCompact_compact; assumption.
    + apply removeHyphens_compact.
      subst report. cbn [formatCampaign Report.endDate Report.isPaused] in *.
      rewrite Hpaused in *. unfold formatEndDate in *.
      destruct (CampaignInfo.endDate (Aggregated.info campaign)) as [date|];
        [|discriminate Hlabel].
      destruct (Hend date eq_refl) as [->|Hiso]; [discriminate Hlabel|].
      destruct date as [|c date]; [discriminate Hiso|].
      destruct (parseIntString _) as [endYear|]; [|exact Hiso].
      destruct (currentYear clock + 10 <? endYear); [discriminate Hlabel|exact Hiso].
Qed.

Lemma metrics_window_of_a_record_witness :
  let report := formatCampaign FirestoreSync sampleClock
                  (aggregateCampaign sampleClock enabledCampaign (Ok tenDays)) in
  isCompactDate (snd (metricsWindow sampleToday report)) = true /\
  snd (metricsWindow sampleToday report) = todayCompact sampleToday.
Proof.
  intros report.
  destruct (metrics_window_of_a_record FirestoreSync sampleClock sampleToday
              (aggregateCampaign sampleClock enabledCampaign (Ok tenDays)))
    as (_ & _ & Hcompact & Hsnd).
  - cbn. lia.
  - cbn. lia.
  - cbn. lia.
  - reflexivity.
  - reflexivity.
  - intros date [= <-]. right. reflexivity.
  - split; [exact Hcompact|exact Hsnd].
Defined.

(** ** The summary of the console report *)

Lemma digit_cases (c : ascii) :
  isDecimalDigit c = true ->
  In c ["0"; "1"; "2"; "3"; "4"; "5"; "6"; "7"; "8"; "9"]%char.
Proof.
  destruct c as [[] [] [] [] [] [] [] []]; intros H;
    try (vm_compute in H; discriminate H); cbn [In]; tauto.
Qed.

Lemma digitValue_nonneg (c : ascii) :
  0 <= match digitValue c with Some d => d | None => 0 end.
Proof.
  unfold digitValue.
  repeat match goal with
         | |- context [if ?b then _ else _] => destruct b eqn:?
         end; lia.
Qed.

Lemma mathInt_nonneg (ds : string) : forall acc, 0 <= acc -> 0 <= mathInt 10 ds acc.
Proof.
  induction ds as [|c ds IH]; intros acc Hacc; [exact Hacc|].
  cbn [mathInt]. apply IH. pose proof (digitValue_nonneg c). lia.
Qed.

Lemma decimalToNumber_nonNegative (D E : Z) :
  0 <= D -> nonNegative (decimalToNumber false D E) = true.
Proof.
  intros HD. unfold decimalToNumber.
  destruct (Z.eqb_spec D 0); [reflexivity|].
  apply nonNegative_hasSign. right.
  destruct (0 <=? E) eqn:HE.
  - apply Z.leb_le in HE.
    assert (0 < D * 10 ^ E) as Hpos.
    { apply Z.mul_pos_pos; [lia|]. apply Z.pow_pos_nonneg; lia. }
    destruct (D * 10 ^ E) as [|p|p] eqn:Hp; try lia.
    change (1 * Z.pos p) with (Z.pos p). cbn [binary_normalize].
    apply binary_round_sign.
  - unfold SFdiv_core_binary.
    destruct (Z.div_eucl _ _) as [q r] eqn:Hdiv.
    apply binary_round_aux_sign.
    assert (0 < 10 ^ (- E)) as Hden by (apply Z.pow_pos_nonneg; lia).
    match type of Hdiv with
    | Z.div_eucl ?a ?b = _ =>
        assert (0 <= a) as Hnum;
        [| pose proof (Z.div_pos a b Hnum Hden) as Hq;
           unfold Z.div in Hq; rewrite Hdiv in Hq; exact Hq]
    end.
    destruct (_ - _ - _) as [|s|s]; [lia| |lia].
    rewrite Z.shiftl_mul_pow2 by lia.
    apply Z.mul_nonneg_nonneg; [lia|]. apply Z.pow_nonneg. lia.
Qed.

Lemma parseFloat_of_two_decimals (s : string) :
  unsignedTwoDecimals s = true -> nonNegative (parseFloatString s) = true.
Proof.
  unfold unsignedTwoDecimals. intros H.
  destruct (span isDecimalDigit s) as [ip r1] eqn:Espan.
  destruct ip as [|d ip]; [discriminate H|].
  destruct r1 as [|point r1]; [discriminate H|].
  destruct (Ascii.eqb_spec point ".") as [->|Hpoint];
    [|destruct point as [[] [] [] [] [] [] [] []]; try discriminate H;
      exfalso; apply Hpoint; reflexivity].
  destruct r1 as [|a [|b [|? ?]]]; try discriminate H.
  apply andb_true_iff in H as [Ha Hb].
  destruct s as [|c s]; [discriminate Espan|].
  assert (isDecimalDigit c = true) as Hc.
  { cbn [span] in Espan. destruct (isDecimalDigit c); [reflexivity|discriminate Espan]. }
  assert (parseFloatString (String c s)
          = match unsignedDecimalPrefix (String c s) with
            | Some (D, E, _) => decimalToNumber false D E
            | None => nan
            end) as ->.
  { pose proof (digit_cases c Hc) as Hcases. cbn [In] in Hcases.
    repeat (destruct Hcases as [<-|Hcases]; [reflexivity|]). contradiction. }
  unfold unsignedDecimalPrefix. rewrite Espan.
  cbn [span]. rewrite Ha, Hb. cbn [exponentPart].
  apply decimalToNumber_nonNegative. apply mathInt_nonneg. lia.
Qed.

(** X18.  The totals of the summary printed by [example] are read back
    from the rendered fields.  When every rendered value of a column is an
    unsigned numeral with two decimals, the total of the column is a
    number that is not negative, and so not [NaN]; the summary of an
    empty report shows zeros. *)
Theorem summary_totals_are_numbers (field : Report.t -> string)
    (campaigns : list Report.t) :
  (Forall (fun campaign => unsignedTwoDecimals (field campaign) = true) campaigns ->
   nonNegative (sumRendered field campaigns) = true /\
   sumRendered field campaigns <> nan) /\
  summaryLines []
  = ["Total Campaigns: 0"; "Total Cost: $0.00"; "Total Conversions: 0.00";
     "Total Conversion Value: $0.00"].
Proof.
  split; [|reflexivity]. intros Hall.
  assert (nonNegative (sumRendered field campaigns) = true) as Hsum.
  { unfold sumRendered.
    assert (forall acc, nonNegative acc = true ->
              nonNegative
                (fold_left (fun sum c => fadd sum (parseFloatString (field c)))
                   campaigns acc) = true) as Hfold.
    { induction Hall as [|campaign campaigns Hhead _ IH]; intros acc Hacc; [exact Hacc|].
      cbn [fold_left]. apply IH. apply fadd_nonNegative; [exact Hacc|].
      apply parseFloat_of_two_decimals. exact Hhead. }
    apply Hfold. reflexivity. }
  split; [exact Hsum|]. intros E. rewrite E in Hsum. discriminate Hsum.
Qed.

Lemma summary_totals_are_numbers_witness :
  nonNegative (sumRendered Report.totalCost sampleBatch) = true /\
  sumRendered Report.totalCost sampleBatch <> nan.
Proof.
  apply (summary_totals_are_numbers Report.totalCost sampleBatch).
  repeat constructor.
Defined.
